(** * TaskModal: the task editing session of tududi

    A shallow embedding of [frontend/components/Task/TaskModal.tsx]: the
    React component that edits one task, loads the recurring parent of a
    generated instance, fetches the task-intelligence flag and the
    available tags, and hands the edited task to its owner on save.

    JavaScript objects are finite maps from property names to values,
    [useState] cells are the fields of a record, and a handler is a
    function from the values its closure captured to the list of calls it
    makes (state setters and outside calls, in program order). One turn
    of the event loop runs one callback, commits the setter calls it made
    as one update (React batches them into a single render) and then runs
    the effects whose dependencies changed. An [async] function is cut at
    its [await]: the part before it, and the part that runs when the
    awaited call comes back. *)

From Stdlib Require Import QArith Qround.
From stdpp Require Import gmap strings list fin_maps.

Set Warnings "-register-all".

Local Open Scope string_scope.
Local Open Scope list_scope.

(** ** JavaScript values *)

(** A JavaScript number. The finite doubles are a subset of the
    rationals; the model admits every rational, which is more than the
    code can receive and changes no branch taken below. *)
Inductive number : Type :=
| Finite (q : Q)
| NegZero
| NaN
| Infinity (negative : bool).

Inductive jsval : Type :=
| VUndefined
| VNull
| VBool (b : bool)
| VNum (n : number)
| VStr (s : string)
| VArr (l : list jsval)
| VObj (fields : list (string * jsval)).

(** An object such as a [Task] is a finite map from property names to
    values; a missing property reads as [undefined]. *)
Abbreviation Task := (gmap string jsval).

Definition get (o : Task) (k : string) : jsval := default VUndefined (o !! k).

Definition is_integer (q : Q) : bool := Qeq_bool q (inject_Z (Qfloor q)).

Definition number_is_zero (n : number) : bool :=
  match n with
  | Finite q => Qeq_bool q 0
  | NegZero => true
  | _ => false
  end.

(** ToBoolean *)
Definition truthy (v : jsval) : bool :=
  match v with
  | VUndefined | VNull => false
  | VBool b => b
  | VNum NaN => false
  | VNum n => negb (number_is_zero n)
  | VStr s => negb (String.eqb s "")
  | VArr _ | VObj _ => true
  end.

Definition number_eq (a b : number) : bool :=
  match a, b with
  | Finite x, Finite y => Qeq_bool x y
  | Finite x, NegZero | NegZero, Finite x => Qeq_bool x 0
  | NegZero, NegZero => true
  | Infinity s, Infinity s' => Bool.eqb s s'
  | _, _ => false
  end.

(** [===] on primitives. Two object or array operands are equal only
    when they are the same reference, which no comparison in this
    component relies on; they compare unequal here. *)
Definition strict_eq (a b : jsval) : bool :=
  match a, b with
  | VUndefined, VUndefined => true
  | VNull, VNull => true
  | VBool x, VBool y => Bool.eqb x y
  | VNum x, VNum y => number_eq x y
  | VStr x, VStr y => String.eqb x y
  | _, _ => false
  end.

(** Property read [v.k] on a value; on [undefined] and [null] the code
    only reads through [?.]. *)
Definition prop (v : jsval) (k : string) : jsval :=
  match v with
  | VObj fields =>
      match List.find (fun kv => String.eqb (fst kv) k) fields with
      | Some kv => snd kv
      | None => VUndefined
      end
  | _ => VUndefined
  end.

(** ** Priority *)

(** Modelled from the spec: [PriorityType] is declared in
    [entities/Task], which is not part of the sources at hand; the data
    model lists the priorities as low, medium and high. *)
Definition PriorityType : list string := ["low"; "medium"; "high"].

(** The argument of [getPriorityString]:
    [PriorityType | number | undefined]. *)
Inductive priority_arg : Type :=
| PNumber (n : number)
| PString (s : string)
| PUndefined.

Definition well_typed_priority (p : priority_arg) : Prop :=
  match p with
  | PString s => In s PriorityType
  | _ => True
  end.

(** [priorityNames[priority]]: the element whose index is the canonical
    decimal string of the number, [undefined] when there is none. *)
Definition index_by_number (names : list string) (n : number) : option string :=
  match n with
  | Finite q =>
      if is_integer q && (0 <=? Qfloor q)%Z
      then nth_error names (Z.to_nat (Qfloor q))
      else None
  | NegZero => nth_error names 0
  | NaN | Infinity _ => None
  end.

(** [x || 'medium'] on a string or [undefined]. *)
Definition or_medium (x : option string) : string :=
  match x with
  | Some s => if String.eqb s "" then "medium" else s
  | None => "medium"
  end.

Definition getPriorityString (priority : priority_arg) : string :=
  match priority with
  | PNumber n =>
      let priorityNames := ["low"; "medium"; "high"] in
      or_medium (index_by_number priorityNames n)
  | PString s => or_medium (Some s)
  | PUndefined => or_medium None
  end.

(** ** The task-name analyzer *)

Record TaskAnalysis := {
  due_date_candidate : option string;
  priority_candidate : option string
}.

Fixpoint contains (needle hay : string) : bool :=
  String.prefix needle hay ||
  match hay with
  | EmptyString => false
  | String _ rest => contains needle rest
  end.

Definition date_words : list string := ["today"; "tomorrow"].
Definition priority_words : list string := PriorityType.

(** Modelled from the spec: [analyzeTaskName] lives in
    [utils/taskIntelligenceService], which is not part of the sources at
    hand. The spec describes it as a pure function from the title to a
    small suggestion set (a candidate due date, a candidate priority
    keyword) found by string pattern matching, and gives one case: the
    title "Pay rent tomorrow" yields a due-date candidate for
    "tomorrow". *)
Definition analyzeTaskName (title : string) : TaskAnalysis :=
  {| due_date_candidate := List.find (fun w => contains w title) date_words;
     priority_candidate := List.find (fun w => contains w title) priority_words |}.

(** ** The project picker *)

Module Project.
(** [entities/Project]: the fields the modal reads. [id] is optional
    ([undefined] when missing). *)
Record t := {
  id : jsval;
  name : string;
  active : bool
}.
End Project.

Record Picker := {
  filteredProjects : list Project.t;
  newProjectName : string;
  dropdownOpen : bool;
  isCreatingProject : bool
}.

Section ProjectPicker.

(** [String.prototype.toLowerCase], which works on Unicode text; the
    model takes it as given. *)
Variable toLowerCase : string -> string.

Definition handleProjectSearch (projects : list Project.t) (value : string)
    (pk : Picker) : Picker :=
  let query := toLowerCase value in
  {| newProjectName := query;
     dropdownOpen := true;
     filteredProjects :=
       List.filter
         (fun project => contains query (toLowerCase (Project.name project)))
         projects;
     isCreatingProject := isCreatingProject pk |}.

End ProjectPicker.

(** The picker's side of [handleProjectSelection]. *)
Definition handleProjectSelection_picker (project : Project.t) (pk : Picker)
  : Picker :=
  {| newProjectName := Project.name project;
     dropdownOpen := false;
     filteredProjects := filteredProjects pk;
     isCreatingProject := isCreatingProject pk |}.

(** [setNewProjectName], [setDropdownOpen], [setFilteredProjects] and
    [setIsCreatingProject] with a value. *)
Definition with_newProjectName (v : string) (pk : Picker) : Picker :=
  {| newProjectName := v;
     dropdownOpen := dropdownOpen pk;
     filteredProjects := filteredProjects pk;
     isCreatingProject := isCreatingProject pk |}.

Definition with_dropdownOpen (b : bool) (pk : Picker) : Picker :=
  {| newProjectName := newProjectName pk;
     dropdownOpen := b;
     filteredProjects := filteredProjects pk;
     isCreatingProject := isCreatingProject pk |}.

Definition with_filteredProjects (v : list Project.t) (pk : Picker) : Picker :=
  {| newProjectName := newProjectName pk;
     dropdownOpen := dropdownOpen pk;
     filteredProjects := v;
     isCreatingProject := isCreatingProject pk |}.

Definition with_isCreatingProject (b : bool) (pk : Picker) : Picker :=
  {| newProjectName := newProjectName pk;
     dropdownOpen := dropdownOpen pk;
     filteredProjects := filteredProjects pk;
     isCreatingProject := b |}.

(** [projects?.find((project) => project.id === task.project_id)] *)
Definition currentProject (projects : list Project.t) (t : Task)
  : option Project.t :=
  List.find
    (fun project => strict_eq (Project.id project) (get t "project_id"))
    projects.

(** ** Props, state and the calls a handler makes *)

(** The props the model keeps. [task] and [projects] are dependencies of
    an effect and are compared by reference there, so each carries the
    identity of the object passed ([task_ref], [projects_ref]);
    [projects] is typed [Project[]]; [onEditParentTask] records whether
    the optional callback was given. *)
Record Props := {
  isOpen : bool;
  task : Task;
  task_ref : nat;
  projects : list Project.t;
  projects_ref : nat;
  onEditParentTask : bool
}.

(** The [useState] cells of the component; the four of the project
    picker are the fields of [picker]. Left out are [expandedSections]
    and [isTimelineExpanded], which no handler or effect below reads and
    which only their own toggles write, and the reference to the modal's
    element. *)
Record State := {
  formData : Task;
  tags : list jsval;
  isClosing : bool;
  showConfirmDialog : bool;
  localAvailableTags : list jsval;
  tagsLoaded : bool;
  parentTask : option Task;
  parentTaskLoading : bool;
  taskAnalysis : option TaskAnalysis;
  taskIntelligenceEnabled : bool;
  picker : Picker
}.

(** Calls that leave the component. *)
Inductive effect : Type :=
| FetchTaskById (id : jsval)
| GetTaskIntelligenceEnabled
| FetchTags
| ConsoleError (msg : string) (err : jsval)
| OnSave (payload : Task)
| OnClose
| OnEditParentTask (parent : Task)
| OnDelete (id : jsval)
| OnCreateProject (name : string)
| ShowSuccessToast (key : string) (uuid name : jsval)
| ShowSuccessMessage (key : string)
| ShowErrorToast (key : string)
| SetTimeout (ms : nat).

(** One call made by a handler: a state setter (with a value, or with an
    updater for [setFormData]), the setters of the project picker's cells
    that a handler calls side by side ([Pick], as one update of
    [picker]), or a call that leaves the component. [ShowSuccessToast] is
    [showSuccessToast] with the link to the task, [ShowSuccessMessage]
    with a plain text. *)
Inductive action : Type :=
| SetFormData (u : Task -> Task)
| SetTags (v : list jsval)
| SetIsClosing (b : bool)
| SetShowConfirmDialog (b : bool)
| SetLocalAvailableTags (v : list jsval)
| SetTagsLoaded (b : bool)
| SetParentTask (v : option Task)
| SetParentTaskLoading (b : bool)
| SetTaskAnalysis (v : option TaskAnalysis)
| SetTaskIntelligenceEnabled (b : bool)
| Pick (u : Picker -> Picker)
| Do (e : effect).

(** [setFormData(v)] with a value rather than an updater. *)
Definition SetFormDataTo (v : Task) : action := SetFormData (fun _ => v).

(** ** Handlers and effects of the component *)

(** [task.tags?.map((tag) => tag.name) || []]; [tags] is typed
    [Tag[] | undefined]. *)
Definition tag_names (t : Task) : list jsval :=
  match t !! "tags" with
  | Some (VArr l) => map (fun tag => prop tag "name") l
  | _ => []
  end.

(** [tags.map((tag) => ({ name: tag }))] *)
Definition tag_objects (names : list jsval) : jsval :=
  VArr (map (fun n => VObj [("name", n)]) names).

(** The text of a title; [name] is typed [string]. *)
Definition text_of (v : jsval) : string :=
  match v with
  | VStr s => s
  | _ => ""
  end.

Definition fetchParentTask (p : Props) : list action :=
  if truthy (get (task p) "recurring_parent_id") && isOpen p
  then [SetParentTaskLoading true;
        Do (FetchTaskById (get (task p) "recurring_parent_id"))]
  else [SetParentTask None].

(** The rest of [fetchParentTask] after the [await]: the fetch resolved
    with [parent], or was rejected with [err]; [finally] runs in both. *)
Definition fetchParentTask_resolved (parent : Task) : list action :=
  [SetParentTask (Some parent); SetParentTaskLoading false].

Definition fetchParentTask_rejected (err : jsval) : list action :=
  [Do (ConsoleError "Error fetching parent task:" err);
   SetParentTask None;
   SetParentTaskLoading false].

(** The effect with dependencies [task, projects, isOpen,
    taskIntelligenceEnabled]. *)
Definition effect_task (s : State) (p : Props) : list action :=
  [SetFormDataTo (task p);
   SetTags (tag_names (task p));
   if isOpen p && truthy (get (task p) "name") && taskIntelligenceEnabled s
   then SetTaskAnalysis (Some (analyzeTaskName (text_of (get (task p) "name"))))
   else SetTaskAnalysis None;
   Pick (with_newProjectName
           match currentProject (projects p) (task p) with
           | Some project => Project.name project
           | None => ""
           end)]
  ++ fetchParentTask p.

(** The effect with dependency [isOpen]. *)
Definition fetchTaskIntelligenceSetting (p : Props) : list action :=
  if isOpen p then [Do GetTaskIntelligenceEnabled] else [].

Definition fetchTaskIntelligenceSetting_resolved (enabled : bool) : list action :=
  [SetTaskIntelligenceEnabled enabled].

Definition fetchTaskIntelligenceSetting_rejected (err : jsval) : list action :=
  [Do (ConsoleError "Error fetching task intelligence setting:" err);
   SetTaskIntelligenceEnabled true].

(** The effect with dependency [projects]:
    [setFilteredProjects(projects || [])]. *)
Definition effect_projects (p : Props) : list action :=
  [Pick (with_filteredProjects (projects p))].

(** The effect with dependencies [isOpen, tagsLoaded]. *)
Definition loadTags (s : State) (p : Props) : list action :=
  if isOpen p && negb (tagsLoaded s) then [Do FetchTags] else [].

Definition effect_tags (s : State) (p : Props) : list action :=
  if isOpen p then loadTags s p else [].

(** [Array.isArray(fetchedTags) ? fetchedTags : []] *)
Definition safeTagsArray (fetchedTags : jsval) : list jsval :=
  match fetchedTags with
  | VArr l => l
  | _ => []
  end.

Definition loadTags_resolved (fetchedTags : jsval) : list action :=
  [SetLocalAvailableTags (safeTagsArray fetchedTags); SetTagsLoaded true].

Definition loadTags_rejected (err : jsval) : list action :=
  [Do (ConsoleError "Error fetching tags:" err);
   SetLocalAvailableTags [];
   SetTagsLoaded true].

Definition handleEditParent (s : State) (p : Props) : list action :=
  match parentTask s with
  | Some parent =>
      if onEditParentTask p
      then [Do (OnEditParentTask parent); Do OnClose]
      else []
  | None => []
  end.

Definition handleParentRecurrenceChange (s : State) (field : string) (value : jsval)
  : list action :=
  match parentTask s with
  | Some parent => [SetParentTask (Some (<[field := value]> parent))]
  | None => []
  end
  ++ [SetFormData (fun prev =>
        <["update_parent_recurrence" := VBool true]> (<[field := value]> prev))].

Definition handleChange (s : State) (name value : string) : list action :=
  SetFormData (fun prev => <[name := VStr value]> prev)
  :: (if String.eqb name "name" && taskIntelligenceEnabled s
      then [SetTaskAnalysis (Some (analyzeTaskName value))]
      else []).

Definition handleRecurrenceChange (field : string) (value : jsval) : list action :=
  [SetFormData (fun prev => <[field := value]> prev)].

Definition handleTagsChange (newTags : list jsval) : list action :=
  [SetTags newTags;
   SetFormData (fun prev => <["tags" := tag_objects newTags]> prev)].

Definition handleProjectSelection (s : State) (project : Project.t)
  : list action :=
  [SetFormDataTo (<["project_id" := Project.id project]> (formData s));
   Pick (handleProjectSelection_picker project)].

(** [handleCreateProject] up to its [await]; [trim] is
    [String.prototype.trim], taken as given like [toLowerCase]. *)
Definition handleCreateProject (trim : string -> string) (s : State)
  : list action :=
  if negb (String.eqb (trim (newProjectName (picker s))) "")
  then [Pick (with_isCreatingProject true);
        Do (OnCreateProject (newProjectName (picker s)))]
  else [].

(** The rest of [handleCreateProject] after the [await]; [formData] and
    [filteredProjects] are the ones its closure captured, and [finally]
    runs in both. *)
Definition handleCreateProject_resolved
    (captured : Task * list Project.t) (newProject : Project.t)
  : list action :=
  [SetFormDataTo (<["project_id" := Project.id newProject]> (fst captured));
   Pick (with_filteredProjects (snd captured ++ [newProject]));
   Pick (with_newProjectName (Project.name newProject));
   Pick (with_dropdownOpen false);
   Do (ShowSuccessMessage "success.projectCreated");
   Pick (with_isCreatingProject false)].

Definition handleCreateProject_rejected (err : jsval) : list action :=
  [Do (ShowErrorToast "errors.projectCreationFailed");
   Do (ConsoleError "Error creating project:" err);
   Pick (with_isCreatingProject false)].

Definition handleClose : list action :=
  [SetIsClosing true; Do (SetTimeout 300)].

(** The callback [handleClose] hands to [setTimeout]. *)
Definition handleClose_timeout : list action :=
  [Do OnClose; SetIsClosing false; SetTagsLoaded false].

Definition handleSubmit (s : State) : list action :=
  [Do (OnSave (<["tags" := tag_objects (tags s)]> (formData s)));
   Do (ShowSuccessToast "task.updated"
         (get (formData s) "uuid") (get (formData s) "name"))]
  ++ handleClose.

Definition handleDeleteClick : list action := [SetShowConfirmDialog true].

Definition handleDeleteConfirm (s : State) : list action :=
  if truthy (get (formData s) "id")
  then [Do (OnDelete (get (formData s) "id"))]
  else [].

(** The rest of [handleDeleteConfirm] after the [await]; the closure
    still holds the [formData] of the render that confirmed. *)
Definition handleDeleteConfirm_resolved (captured : Task) : list action :=
  [Do (ShowSuccessToast "task.deleted"
         (get captured "uuid") (get captured "name"));
   SetShowConfirmDialog false]
  ++ handleClose.

Definition handleDeleteConfirm_rejected (err : jsval) : list action :=
  [Do (ConsoleError "Failed to delete task:" err);
   Do (ShowErrorToast "task.deleteError")].

(** [onStatusChange] of the metadata section. *)
Definition onStatusChange (s : State) (value : jsval) : list action :=
  let updatedData := <["status" := value]> (formData s) in
  let updatedData :=
    if strict_eq value (VStr "in_progress")
    then <["today" := VBool true]> updatedData
    else updatedData in
  [SetFormDataTo updatedData].

Definition onPriorityChange (s : State) (value : jsval) : list action :=
  [SetFormDataTo (<["priority" := value]> (formData s))].

(** ** One turn of the event loop *)

Definition apply_setter (a : action) (s : State) : State :=
  match a with
  | SetFormData u =>
      {| formData := u (formData s); tags := tags s; isClosing := isClosing s;
         showConfirmDialog := showConfirmDialog s;
         localAvailableTags := localAvailableTags s; tagsLoaded := tagsLoaded s;
         parentTask := parentTask s; parentTaskLoading := parentTaskLoading s;
         taskAnalysis := taskAnalysis s;
         taskIntelligenceEnabled := taskIntelligenceEnabled s;
         picker := picker s |}
  | SetTags v =>
      {| formData := formData s; tags := v; isClosing := isClosing s;
         showConfirmDialog := showConfirmDialog s;
         localAvailableTags := localAvailableTags s; tagsLoaded := tagsLoaded s;
         parentTask := parentTask s; parentTaskLoading := parentTaskLoading s;
         taskAnalysis := taskAnalysis s;
         taskIntelligenceEnabled := taskIntelligenceEnabled s;
         picker := picker s |}
  | SetIsClosing b =>
      {| formData := formData s; tags := tags s; isClosing := b;
         showConfirmDialog := showConfirmDialog s;
         localAvailableTags := localAvailableTags s; tagsLoaded := tagsLoaded s;
         parentTask := parentTask s; parentTaskLoading := parentTaskLoading s;
         taskAnalysis := taskAnalysis s;
         taskIntelligenceEnabled := taskIntelligenceEnabled s;
         picker := picker s |}
  | SetShowConfirmDialog b =>
      {| formData := formData s; tags := tags s; isClosing := isClosing s;
         showConfirmDialog := b;
         localAvailableTags := localAvailableTags s; tagsLoaded := tagsLoaded s;
         parentTask := parentTask s; parentTaskLoading := parentTaskLoading s;
         taskAnalysis := taskAnalysis s;
         taskIntelligenceEnabled := taskIntelligenceEnabled s;
         picker := picker s |}
  | SetLocalAvailableTags v =>
      {| formData := formData s; tags := tags s; isClosing := isClosing s;
         showConfirmDialog := showConfirmDialog s;
         localAvailableTags := v; tagsLoaded := tagsLoaded s;
         parentTask := parentTask s; parentTaskLoading := parentTaskLoading s;
         taskAnalysis := taskAnalysis s;
         taskIntelligenceEnabled := taskIntelligenceEnabled s;
         picker := picker s |}
  | SetTagsLoaded b =>
      {| formData := formData s; tags := tags s; isClosing := isClosing s;
         showConfirmDialog := showConfirmDialog s;
         localAvailableTags := localAvailableTags s; tagsLoaded := b;
         parentTask := parentTask s; parentTaskLoading := parentTaskLoading s;
         taskAnalysis := taskAnalysis s;
         taskIntelligenceEnabled := taskIntelligenceEnabled s;
         picker := picker s |}
  | SetParentTask v =>
      {| formData := formData s; tags := tags s; isClosing := isClosing s;
         showConfirmDialog := showConfirmDialog s;
         localAvailableTags := localAvailableTags s; tagsLoaded := tagsLoaded s;
         parentTask := v; parentTaskLoading := parentTaskLoading s;
         taskAnalysis := taskAnalysis s;
         taskIntelligenceEnabled := taskIntelligenceEnabled s;
         picker := picker s |}
  | SetParentTaskLoading b =>
      {| formData := formData s; tags := tags s; isClosing := isClosing s;
         showConfirmDialog := showConfirmDialog s;
         localAvailableTags := localAvailableTags s; tagsLoaded := tagsLoaded s;
         parentTask := parentTask s; parentTaskLoading := b;
         taskAnalysis := taskAnalysis s;
         taskIntelligenceEnabled := taskIntelligenceEnabled s;
         picker := picker s |}
  | SetTaskAnalysis v =>
      {| formData := formData s; tags := tags s; isClosing := isClosing s;
         showConfirmDialog := showConfirmDialog s;
         localAvailableTags := localAvailableTags s; tagsLoaded := tagsLoaded s;
         parentTask := parentTask s; parentTaskLoading := parentTaskLoading s;
         taskAnalysis := v;
         taskIntelligenceEnabled := taskIntelligenceEnabled s;
         picker := picker s |}
  | SetTaskIntelligenceEnabled b =>
      {| formData := formData s; tags := tags s; isClosing := isClosing s;
         showConfirmDialog := showConfirmDialog s;
         localAvailableTags := localAvailableTags s; tagsLoaded := tagsLoaded s;
         parentTask := parentTask s; parentTaskLoading := parentTaskLoading s;
         taskAnalysis := taskAnalysis s;
         taskIntelligenceEnabled := b;
         picker := picker s |}
  | Pick u =>
      {| formData := formData s; tags := tags s; isClosing := isClosing s;
         showConfirmDialog := showConfirmDialog s;
         localAvailableTags := localAvailableTags s; tagsLoaded := tagsLoaded s;
         parentTask := parentTask s; parentTaskLoading := parentTaskLoading s;
         taskAnalysis := taskAnalysis s;
         taskIntelligenceEnabled := taskIntelligenceEnabled s;
         picker := u (picker s) |}
  | Do _ => s
  end.

(** Work that was started and has not come back yet: fetches in flight,
    close timers set and not yet fired, deletions awaited, each with the
    [formData] its closure captured, and project creations awaited, each
    with the [formData] and the [filteredProjects] its closure captured
    (neither handler writes these cells before its call, so they are the
    committed ones). *)
Record Pending := {
  parent_fetches : nat;
  flag_fetches : nat;
  tags_fetches : nat;
  close_timers : nat;
  deletes : list Task;
  creates : list (Task * list Project.t)
}.

Definition register (e : effect) (captured : State) (q : Pending) : Pending :=
  match e with
  | FetchTaskById _ =>
      {| parent_fetches := S (parent_fetches q); flag_fetches := flag_fetches q;
         tags_fetches := tags_fetches q; close_timers := close_timers q;
         deletes := deletes q; creates := creates q |}
  | GetTaskIntelligenceEnabled =>
      {| parent_fetches := parent_fetches q; flag_fetches := S (flag_fetches q);
         tags_fetches := tags_fetches q; close_timers := close_timers q;
         deletes := deletes q; creates := creates q |}
  | FetchTags =>
      {| parent_fetches := parent_fetches q; flag_fetches := flag_fetches q;
         tags_fetches := S (tags_fetches q); close_timers := close_timers q;
         deletes := deletes q; creates := creates q |}
  | SetTimeout _ =>
      {| parent_fetches := parent_fetches q; flag_fetches := flag_fetches q;
         tags_fetches := tags_fetches q; close_timers := S (close_timers q);
         deletes := deletes q; creates := creates q |}
  | OnDelete _ =>
      {| parent_fetches := parent_fetches q; flag_fetches := flag_fetches q;
         tags_fetches := tags_fetches q; close_timers := close_timers q;
         deletes := deletes q ++ [formData captured]; creates := creates q |}
  | OnCreateProject _ =>
      {| parent_fetches := parent_fetches q; flag_fetches := flag_fetches q;
         tags_fetches := tags_fetches q; close_timers := close_timers q;
         deletes := deletes q;
         creates :=
           creates q
           ++ [(formData captured, filteredProjects (picker captured))] |}
  | _ => q
  end.

(** The calls that reach the owner of the modal, which may answer by
    rendering it again with other props. *)
Definition is_callback (e : effect) : bool :=
  match e with
  | OnSave _ | OnClose | OnEditParentTask _ | OnDelete _
  | OnCreateProject _ => true
  | _ => false
  end.

(** The component with its surroundings: the props of the last render,
    the committed state, every outside call made so far (oldest first)
    and the work in flight. *)
Record World := {
  props : Props;
  st : State;
  trace : list effect;
  pending : Pending
}.

Inductive event : Type :=
(* the user *)
| EvChange (name value : string)
| EvRecurrenceChange (field : string) (value : jsval)
| EvParentRecurrenceChange (field : string) (value : jsval)
| EvEditParent
| EvTagsChange (newTags : list jsval)
| EvProjectSearch (value : string)
| EvProjectSelection (project : Project.t)
| EvCreateProject
| EvStatusChange (value : jsval)
| EvPriorityChange (value : jsval)
| EvSubmit
| EvClose
| EvDeleteClick
| EvDeleteConfirm
| EvDeleteCancel
(* work coming back *)
| EvParentResolved (parent : Task)
| EvParentRejected (err : jsval)
| EvFlagResolved (enabled : bool)
| EvFlagRejected (err : jsval)
| EvTagsResolved (fetchedTags : jsval)
| EvTagsRejected (err : jsval)
| EvCloseTimeout
| EvDeleteResolved
| EvDeleteRejected (err : jsval)
| EvCreateProjectResolved (newProject : Project.t)
| EvCreateProjectRejected (err : jsval)
(* the owner renders the modal with new props *)
| EvProps (p : Props).

Section Component.

(** [String.prototype.toLowerCase] and [String.prototype.trim], taken as
    given. *)
Variable toLowerCase : string -> string.
Variable trim : string -> string.

(** How the owner of the modal answers a callback: the props it passes
    on the render that follows. *)
Variable parent : effect -> Props -> Props.

Definition apply_action (a : action) (w : World) : World :=
  match a with
  | Do e =>
      {| props := if is_callback e then parent e (props w) else props w;
         st := st w;
         trace := trace w ++ [e];
         pending := register e (st w) (pending w) |}
  | _ =>
      {| props := props w; st := apply_setter a (st w);
         trace := trace w; pending := pending w |}
  end.

(** The calls of one handler take effect together, in program order. *)
Definition flush (acts : list action) (w : World) : World :=
  fold_left (fun w a => apply_action a w) acts w.

Definition deps_task (w : World) : nat * nat * bool * bool :=
  (task_ref (props w), projects_ref (props w), isOpen (props w),
   taskIntelligenceEnabled (st w)).

Definition deps_tags (w : World) : bool * bool :=
  (isOpen (props w), tagsLoaded (st w)).

(** The effects whose dependencies differ between the previous render
    [old] and the new one [new], in the order they are declared; their
    closures see the new render. The two effects on the document
    (listeners, body scroll) are modelled apart. *)
Definition due_effects (old new : World) : list action :=
  (if bool_decide (deps_task old = deps_task new)
   then [] else effect_task (st new) (props new))
  ++ (if Bool.eqb (isOpen (props old)) (isOpen (props new))
      then [] else fetchTaskIntelligenceSetting (props new))
  ++ (if bool_decide (deps_tags old = deps_tags new)
      then [] else effect_tags (st new) (props new))
  ++ (if Nat.eqb (projects_ref (props old)) (projects_ref (props new))
      then [] else effect_projects (props new)).

Definition commit (old new : World) : World :=
  flush (due_effects old new) new.

Definition with_pending (q : Pending) (w : World) : World :=
  {| props := props w; st := st w; trace := trace w; pending := q |}.

Definition with_props (p : Props) (w : World) : World :=
  {| props := p; st := st w; trace := trace w; pending := pending w |}.

(** What the user can reach: nothing is rendered while the modal is
    closed, the confirmation dialog exists only while
    [showConfirmDialog] holds, and the recurrence section is handed
    [onEditParent] and [onParentRecurrenceChange] only while a parent
    task is loaded. *)
Definition offered (w : World) (e : event) : bool :=
  match e with
  | EvEditParent | EvParentRecurrenceChange _ _ =>
      isOpen (props w) && bool_decide (is_Some (parentTask (st w)))
  | EvDeleteConfirm | EvDeleteCancel =>
      isOpen (props w) && showConfirmDialog (st w)
  | EvDeleteClick =>
      isOpen (props w) && truthy (get (task (props w)) "id")
  | EvParentResolved _ | EvParentRejected _ =>
      bool_decide (0 < parent_fetches (pending w))
  | EvFlagResolved _ | EvFlagRejected _ =>
      bool_decide (0 < flag_fetches (pending w))
  | EvTagsResolved _ | EvTagsRejected _ =>
      bool_decide (0 < tags_fetches (pending w))
  | EvCloseTimeout => bool_decide (0 < close_timers (pending w))
  | EvDeleteResolved | EvDeleteRejected _ =>
      bool_decide (deletes (pending w) <> [])
  | EvCreateProjectResolved _ | EvCreateProjectRejected _ =>
      bool_decide (creates (pending w) <> [])
  | EvProps _ => true
  | _ => isOpen (props w)
  end.

(** The work that comes back with an event is no longer in flight. *)
Definition settle (e : event) (q : Pending) : Pending :=
  match e with
  | EvParentResolved _ | EvParentRejected _ =>
      {| parent_fetches := pred (parent_fetches q); flag_fetches := flag_fetches q;
         tags_fetches := tags_fetches q; close_timers := close_timers q;
         deletes := deletes q; creates := creates q |}
  | EvFlagResolved _ | EvFlagRejected _ =>
      {| parent_fetches := parent_fetches q; flag_fetches := pred (flag_fetches q);
         tags_fetches := tags_fetches q; close_timers := close_timers q;
         deletes := deletes q; creates := creates q |}
  | EvTagsResolved _ | EvTagsRejected _ =>
      {| parent_fetches := parent_fetches q; flag_fetches := flag_fetches q;
         tags_fetches := pred (tags_fetches q); close_timers := close_timers q;
         deletes := deletes q; creates := creates q |}
  | EvCloseTimeout =>
      {| parent_fetches := parent_fetches q; flag_fetches := flag_fetches q;
         tags_fetches := tags_fetches q; close_timers := pred (close_timers q);
         deletes := deletes q; creates := creates q |}
  | EvDeleteResolved | EvDeleteRejected _ =>
      {| parent_fetches := parent_fetches q; flag_fetches := flag_fetches q;
         tags_fetches := tags_fetches q; close_timers := close_timers q;
         deletes := tail (deletes q); creates := creates q |}
  | EvCreateProjectResolved _ | EvCreateProjectRejected _ =>
      {| parent_fetches := parent_fetches q; flag_fetches := flag_fetches q;
         tags_fetches := tags_fetches q; close_timers := close_timers q;
         deletes := deletes q; creates := tail (creates q) |}
  | _ => q
  end.

(** The code that runs on an event, with the values its closure holds. *)
Definition handler (w : World) (e : event) : list action :=
  let s := st w in
  match e with
  | EvChange name value => handleChange s name value
  | EvRecurrenceChange field value => handleRecurrenceChange field value
  | EvParentRecurrenceChange field value =>
      handleParentRecurrenceChange s field value
  | EvEditParent => handleEditParent s (props w)
  | EvTagsChange newTags => handleTagsChange newTags
  | EvProjectSearch value =>
      [Pick (handleProjectSearch toLowerCase (projects (props w)) value)]
  | EvProjectSelection project => handleProjectSelection s project
  | EvCreateProject => handleCreateProject trim s
  | EvStatusChange value => onStatusChange s value
  | EvPriorityChange value => onPriorityChange s value
  | EvSubmit => handleSubmit s
  | EvClose => handleClose
  | EvDeleteClick => handleDeleteClick
  | EvDeleteConfirm => handleDeleteConfirm s
  | EvDeleteCancel => [SetShowConfirmDialog false]
  | EvParentResolved parent => fetchParentTask_resolved parent
  | EvParentRejected err => fetchParentTask_rejected err
  | EvFlagResolved enabled => fetchTaskIntelligenceSetting_resolved enabled
  | EvFlagRejected err => fetchTaskIntelligenceSetting_rejected err
  | EvTagsResolved fetchedTags => loadTags_resolved fetchedTags
  | EvTagsRejected err => loadTags_rejected err
  | EvCloseTimeout => handleClose_timeout
  | EvDeleteResolved =>
      handleDeleteConfirm_resolved (default ∅ (head (deletes (pending w))))
  | EvDeleteRejected err => handleDeleteConfirm_rejected err
  | EvCreateProjectResolved newProject =>
      handleCreateProject_resolved
        (default (∅, []) (head (creates (pending w)))) newProject
  | EvCreateProjectRejected err => handleCreateProject_rejected err
  | EvProps _ => []
  end.

(** One turn: the handler runs and its calls are committed, the modal
    renders, and the effects whose dependencies changed run. [None]
    when the event cannot happen in [w]. *)
Definition step (w : World) (e : event) : option World :=
  if offered w e then
    let w1 := with_pending (settle e (pending w)) w in
    let w2 := match e with EvProps p => with_props p w1 | _ => w1 end in
    Some (commit w (flush (handler w e) w2))
  else None.

Fixpoint run (w : World) (es : list event) : option World :=
  match es with
  | [] => Some w
  | e :: es' =>
      match step w e with
      | Some w' => run w' es'
      | None => None
      end
  end.

(** The states an observer can see along a run: one per turn. *)
Fixpoint observations (w : World) (es : list event) : list World :=
  match es with
  | [] => []
  | e :: es' =>
      match step w e with
      | Some w' => w' :: observations w' es'
      | None => []
      end
  end.

(** The first render: the initial values of the [useState] cells, then
    every effect. *)
Definition initial_state (p : Props) : State :=
  {| formData := task p;
     tags := tag_names (task p);
     isClosing := false;
     showConfirmDialog := false;
     localAvailableTags := [];
     tagsLoaded := false;
     parentTask := None;
     parentTaskLoading := false;
     taskAnalysis := None;
     taskIntelligenceEnabled := true;
     picker := {| filteredProjects := projects p; newProjectName := "";
                  dropdownOpen := false; isCreatingProject := false |} |}.

Definition no_pending : Pending :=
  {| parent_fetches := 0; flag_fetches := 0; tags_fetches := 0;
     close_timers := 0; deletes := []; creates := [] |}.

Definition mount (p : Props) : World :=
  let w := {| props := p; st := initial_state p; trace := [];
              pending := no_pending |} in
  flush (effect_task (st w) p
         ++ fetchTaskIntelligenceSetting p
         ++ effect_tags (st w) p
         ++ effect_projects p) w.

End Component.

(** ** Vocabulary of the properties *)

(** The editing session as the spec names its states, read off the props
    and the state of the component. *)
Inductive Session : Type :=
| Closed
| OpenNoParent
| OpenParentLoading
| OpenParentLoaded.

Definition session_state (w : World) : Session :=
  if negb (isOpen (props w)) then Closed
  else if parentTaskLoading (st w) then OpenParentLoading
  else match parentTask (st w) with
       | Some _ => OpenParentLoaded
       | None => OpenNoParent
       end.

Definition is_FetchTags (e : effect) : bool :=
  match e with FetchTags => true | _ => false end.

Definition is_FetchTaskById (e : effect) : bool :=
  match e with FetchTaskById _ => true | _ => false end.

Definition is_toast (e : effect) : bool :=
  match e with
  | ShowSuccessToast _ _ _ | ShowSuccessMessage _ | ShowErrorToast _ => true
  | _ => false
  end.


(** The outside calls among the calls of a handler, in program order. *)
Definition calls (acts : list action) : list effect :=
  omap (fun a => match a with Do e => Some e | _ => None end) acts.

Definition number_of_Z (z : Z) : number := Finite (inject_Z z).

(** A property that is [undefined] (or missing) or [null]. *)
Definition absent (v : jsval) : Prop := v = VUndefined \/ v = VNull.

Definition is_OnClose (e : effect) : bool :=
  match e with OnClose => true | _ => false end.

Definition is_OnEditParentTask (e : effect) : bool :=
  match e with OnEditParentTask _ => true | _ => false end.

(** Some call satisfying [a] is made before some call satisfying [b]. *)
Fixpoint called_before (a b : effect -> bool) (l : list effect) : bool :=
  match l with
  | [] => false
  | e :: l' => (a e && existsb b l') || called_before a b l'
  end.

(** The payloads handed to [onSave], oldest first. *)
Definition saved (l : list effect) : list Task :=
  omap (fun e => match e with OnSave payload => Some payload | _ => None end) l.

(** ** Sample data *)

(** Lower case for the letters A to Z; every other character is kept. *)
Definition ascii_lower (c : Ascii.ascii) : Ascii.ascii :=
  let n := Ascii.nat_of_ascii c in
  if (65 <=? n)%nat && (n <=? 90)%nat then Ascii.ascii_of_nat (n + 32) else c.

Fixpoint lower (s : string) : string :=
  match s with
  | EmptyString => EmptyString
  | String c rest => String (ascii_lower c) (lower rest)
  end.

Definition sample_projects : list Project.t :=
  [ {| Project.id := VNum (number_of_Z 1); Project.name := "Home";
       Project.active := true |};
    {| Project.id := VNum (number_of_Z 2); Project.name := "Work";
       Project.active := true |};
    {| Project.id := VNum (number_of_Z 3); Project.name := "Homework";
       Project.active := false |} ].

(** Blanks taken off both ends, for the blank, the tab and the two line
    ends. *)
Definition is_blank (c : Ascii.ascii) : bool :=
  let n := Ascii.nat_of_ascii c in
  (n =? 32)%nat || (n =? 9)%nat || (n =? 10)%nat || (n =? 13)%nat.

Fixpoint drop_blanks (l : list Ascii.ascii) : list Ascii.ascii :=
  match l with
  | c :: rest => if is_blank c then drop_blanks rest else l
  | [] => []
  end.

Definition trim_spaces (s : string) : string :=
  String.string_of_list_ascii
    (List.rev
       (drop_blanks
          (List.rev (drop_blanks (String.list_ascii_of_string s))))).


(** An owner that closes the modal when asked to, and moves on to the
    parent task when asked to edit it. *)
Definition closing_owner (e : effect) (p : Props) : Props :=
  match e with
  | OnClose =>
      {| isOpen := false; task := task p; task_ref := task_ref p;
         projects := projects p; projects_ref := projects_ref p;
         onEditParentTask := onEditParentTask p |}
  | OnEditParentTask t =>
      {| isOpen := true; task := t; task_ref := S (task_ref p);
         projects := projects p; projects_ref := projects_ref p;
         onEditParentTask := onEditParentTask p |}
  | _ => p
  end.

Definition rent_parent : Task :=
  <["id" := VNum (number_of_Z 1)]>
    (<["name" := VStr "Pay rent"]>
       (<["recurrence_type" := VStr "monthly"]> ∅)).

Definition rent_child : Task :=
  <["id" := VNum (number_of_Z 2)]>
    (<["name" := VStr "Pay rent tomorrow"]>
       (<["recurring_parent_id" := VNum (number_of_Z 1)]> ∅)).

Definition untitled_task : Task :=
  <["id" := VNum (number_of_Z 3)]> (<["name" := VStr ""]> ∅).

Definition props_for (open : bool) (t : Task) (ref : nat) : Props :=
  {| isOpen := open; task := t; task_ref := ref;
     projects := sample_projects; projects_ref := 0;
     onEditParentTask := true |}.

(** Where a run on the sample functions ends. *)
Definition run_from (owner : effect -> Props -> Props) (w : World)
    (es : list event) : World :=
  default w (run lower trim_spaces owner w es).

(** The generated instance is being edited and its parent is loading. *)
Definition child_session : World :=
  mount closing_owner (props_for true rent_child 0).

(** The same session once the parent has arrived. *)
Definition loaded_session : World :=
  run_from closing_owner child_session [EvParentResolved rent_parent].


(** While task intelligence is off, no analysis is held. *)
Definition no_analysis_while_disabled (w : World) : Prop :=
  taskIntelligenceEnabled (st w) = false -> taskAnalysis (st w) = None.



(** The session closed by its owner while the parent is still loading. *)
Definition closed_while_loading : World :=
  run_from closing_owner child_session [EvProps (props_for false rent_child 0)].

(** ** What a turn calls *)

Definition is_GetTaskIntelligenceEnabled (e : effect) : bool :=
  match e with GetTaskIntelligenceEnabled => true | _ => false end.

Definition is_SetTimeout (e : effect) : bool :=
  match e with SetTimeout _ => true | _ => false end.

(** Any of the three fetches the modal makes. *)
Definition is_fetch (e : effect) : bool :=
  is_FetchTaskById e || is_GetTaskIntelligenceEnabled e || is_FetchTags e.

(** The calls of one kind made so far, oldest first. *)
Definition issued (kind : effect -> bool) (w : World) : list effect :=
  List.filter kind (trace w).


(** The loading flag of the parent is on only while a fetch of the parent
    is in flight. *)
Definition loading_has_fetch (w : World) : Prop :=
  parentTaskLoading (st w) = true -> 0 < parent_fetches (pending w).

(** ** The dot on the button of the metadata section *)

(** [formData.due_date || formData.priority !== 'medium' ||
    (formData.status && formData.status !== 'not_started')] *)
Definition metadata_indicator (fd : Task) : bool :=
  truthy (get fd "due_date")
  || negb (strict_eq (get fd "priority") (VStr "medium"))
  || (truthy (get fd "status")
      && negb (strict_eq (get fd "status") (VStr "not_started"))).

(** [formData.priority] as the argument the metadata section hands to
    [getPriorityString]; the field is typed
    [PriorityType | number | undefined]. *)
Definition priority_arg_of (v : jsval) : option priority_arg :=
  match v with
  | VNum n => Some (PNumber n)
  | VStr s => Some (PString s)
  | VUndefined => Some PUndefined
  | _ => None
  end.

(** ** The collapsible sections *)

Inductive section_key : Type :=
| SecTags
| SecProject
| SecMetadata
| SecRecurrence.

Record ExpandedSections := {
  sec_tags : bool;
  sec_project : bool;
  sec_metadata : bool;
  sec_recurrence : bool
}.

(** The initial value of [expandedSections]. *)
Definition all_collapsed : ExpandedSections :=
  {| sec_tags := false; sec_project := false; sec_metadata := false;
     sec_recurrence := false |}.

(** [prev[section]] *)
Definition expanded (section : section_key) (s : ExpandedSections) : bool :=
  match section with
  | SecTags => sec_tags s
  | SecProject => sec_project s
  | SecMetadata => sec_metadata s
  | SecRecurrence => sec_recurrence s
  end.

(** [{ ...prev, [section]: b }] *)
Definition set_expanded (section : section_key) (b : bool)
    (s : ExpandedSections) : ExpandedSections :=
  match section with
  | SecTags =>
      {| sec_tags := b; sec_project := sec_project s;
         sec_metadata := sec_metadata s; sec_recurrence := sec_recurrence s |}
  | SecProject =>
      {| sec_tags := sec_tags s; sec_project := b;
         sec_metadata := sec_metadata s; sec_recurrence := sec_recurrence s |}
  | SecMetadata =>
      {| sec_tags := sec_tags s; sec_project := sec_project s;
         sec_metadata := b; sec_recurrence := sec_recurrence s |}
  | SecRecurrence =>
      {| sec_tags := sec_tags s; sec_project := sec_project s;
         sec_metadata := sec_metadata s; sec_recurrence := b |}
  end.

(** The updater [toggleSection] hands to [setExpandedSections]: the new
    value, and the timer it sets to scroll the expanded section into
    view. *)
Definition toggleSection (section : section_key) (prev : ExpandedSections)
  : ExpandedSections * list effect :=
  let newExpanded := set_expanded section (negb (expanded section prev)) prev in
  (newExpanded,
   if expanded section newExpanded then [SetTimeout 100] else []).

(** ** The document: scroll lock and listeners *)

(** What the modal keeps on the document: the [overflow] style of the
    body, and the listeners it added, each named by the render whose
    effect created it. *)
Record Document := {
  body_overflow : string;
  mousedown : list nat;
  keydown : list nat
}.

(** The effect on [isOpen] that listens for clicks outside and locks the
    scroll of the body, and its cleanup. *)
Definition scroll_lock_effect (render : nat) (open : bool) (d : Document)
  : Document :=
  if open
  then {| body_overflow := "hidden";
          mousedown := mousedown d ++ [render]; keydown := keydown d |}
  else {| body_overflow := "unset";
          mousedown := mousedown d; keydown := keydown d |}.

Definition scroll_lock_cleanup (render : nat) (d : Document) : Document :=
  {| body_overflow := "unset";
     mousedown := List.filter (fun r => negb (Nat.eqb r render)) (mousedown d);
     keydown := keydown d |}.

(** The effect on [isOpen] that listens for the Escape key, and its
    cleanup. *)
Definition escape_effect (render : nat) (open : bool) (d : Document)
  : Document :=
  if open
  then {| body_overflow := body_overflow d;
          mousedown := mousedown d; keydown := keydown d ++ [render] |}
  else d.

Definition escape_cleanup (render : nat) (d : Document) : Document :=
  {| body_overflow := body_overflow d;
     mousedown := mousedown d;
     keydown := List.filter (fun r => negb (Nat.eqb r render)) (keydown d) |}.

(** The mounted modal as the document sees it: the value of [isOpen] at
    the last render, the render whose effects are in place, and the
    number of renders so far. *)
Record Mounted := {
  doc : Document;
  open_now : bool;
  effects_of : nat;
  renders : nat
}.

Definition mount_document (open : bool) (d : Document) : Mounted :=
  {| doc := escape_effect 0 open (scroll_lock_effect 0 open d);
     open_now := open; effects_of := 0; renders := 1 |}.

(** A render: when [isOpen] changed, the cleanups of the previous run
    and then the effects of this one. *)
Definition rerender (open : bool) (m : Mounted) : Mounted :=
  if Bool.eqb open (open_now m)
  then {| doc := doc m; open_now := open_now m; effects_of := effects_of m;
          renders := S (renders m) |}
  else
    let cleaned := escape_cleanup (effects_of m)
                     (scroll_lock_cleanup (effects_of m) (doc m)) in
    {| doc := escape_effect (renders m) open
                (scroll_lock_effect (renders m) open cleaned);
       open_now := open; effects_of := renders m; renders := S (renders m) |}.

Definition unmount_document (m : Mounted) : Document :=
  escape_cleanup (effects_of m) (scroll_lock_cleanup (effects_of m) (doc m)).

(** ** The navigation helper of the Sinatra application *)

Module Helpers.

(** A value of the parsed query string: a text, or anything else
    ([nil], a nested hash or an array). *)
Inductive param : Type :=
| Text (s : string)
| Other.

#[global] Instance param_eq_dec : EqDecision param.
Proof. solve_decision. Defined.

(** The request as [nav_link] reads it; [params] is what
    [Rack::Utils.parse_nested_query] makes of the query string. *)
Record request := {
  path_info : string;
  params : gmap string param
}.

(** [s.end_with?(suffix)] *)
Definition end_with (s suffix : string) : bool :=
  bool_decide (String.length suffix <= String.length s) &&
  String.eqb
    (String.substring (String.length s - String.length suffix) (String.length suffix) s)
    suffix.

(** The local [is_active] of [nav_link]; [project_id] is [nil] or the
    text its interpolation gives. *)
Definition is_active (req : request) (path : string)
    (query_params : list (string * string)) (project_id : option string)
  : bool :=
  let current_uri := path_info req in
  let current_params := params req in
  let is_project_page :=
    contains "/project/" current_uri && contains "/project/" path in
  if is_project_page then
    String.eqb current_uri path &&
    match project_id with
    | None => true
    | Some id => end_with current_uri (String.append "/" id)
    end
  else if negb (bool_decide (query_params = [])) then
    String.eqb current_uri path &&
    forallb (fun kv =>
               bool_decide (current_params !! fst kv = Some (Text (snd kv))))
            query_params
  else
    String.eqb current_uri path && bool_decide (current_params = ∅).

Definition nav_link (req : request) (path : string)
    (query_params : list (string * string)) (project_id : option string)
  : string :=
  let classes := "nav-link py-1 px-3" in
  let classes :=
    if is_active req path query_params project_id
    then String.append classes " active bg-dark" else classes in
  let classes :=
    if negb (is_active req path query_params project_id)
    then String.append classes " link-dark" else classes in
  classes.

End Helpers.

(** The closing style is on only while a close timer is pending. *)
Definition closing_has_timer (w : World) : Prop :=
  isClosing (st w) = true -> 0 < close_timers (pending w).

(** What the modal keeps on the document when the effects of [render]
    are in place. *)
Definition locked (open : bool) (render : nat) : Document :=
  {| body_overflow := if open then "hidden" else "unset";
     mousedown := if open then [render] else [];
     keydown := if open then [render] else [] |}.

(** The document before the modal is mounted, with none of its
    listeners on it. *)
Definition fresh_document (overflow : string) : Document :=
  {| body_overflow := overflow; mousedown := []; keydown := [] |}.

(** ** More sample data *)

(** The session on [rent_child] was closed while its parent was loading,
    and the modal was opened again on a task that has no parent. *)
Definition reopened_on_untitled : World :=
  run_from closing_owner closed_while_loading
    [EvProps (props_for true untitled_task 1)].

(** The confirmation dialog of [loaded_session] is up. *)
Definition confirming_session : World :=
  run_from closing_owner loaded_session [EvDeleteClick].

(** The name of [child_session] has been edited. *)
Definition edited_session : World :=
  run_from closing_owner child_session [EvChange "name" "Pay the rent"].

Definition closed_props : Props := props_for false rent_child 0.



Definition sample_request : Helpers.request :=
  {| Helpers.path_info := "/tasks";
     Helpers.params := <["due_date" := Helpers.Text "today"]> ∅ |}.

(** Case analysis on every condition the goal branches on. *)
Ltac split_ifs :=
  repeat match goal with
         | |- context [if ?b then _ else _] => destruct b; cbn
         | |- context [match ?o with Some _ => _ | None => _ end] =>
             destruct o; cbn
         end.

(** * Properties *)

(** ** getPriorityString *)

Lemma Qeq_bool_floor (q : Q) (z : Z) :
  Qeq_bool q (inject_Z z) = true -> Qfloor q = z /\ is_integer q = true.
Proof.
  intros H. apply Qeq_bool_iff in H.
  assert (Hf : Qfloor q = z) by (rewrite H; apply Qfloor_Z).
  split; [exact Hf|].
  unfold is_integer. rewrite Hf. now apply Qeq_bool_iff.
Qed.

Lemma index_by_number_Z (names : list string) (z : Z) (q : Q) :
  Qeq_bool q (inject_Z z) = true -> (0 <= z)%Z ->
  index_by_number names (Finite q) = nth_error names (Z.to_nat z).
Proof.
  intros H Hz. destruct (Qeq_bool_floor q z H) as [Hf Hi].
  unfold index_by_number. rewrite Hi, Hf.
  destruct (Z.leb_spec 0 z); [reflexivity | lia].
Qed.

Lemma index_by_number_other (q : Q) :
  Qeq_bool q (inject_Z 0) = false ->
  Qeq_bool q (inject_Z 1) = false ->
  Qeq_bool q (inject_Z 2) = false ->
  index_by_number ["low"; "medium"; "high"] (Finite q) = None.
Proof.
  intros H0 H1 H2. unfold index_by_number.
  destruct (is_integer q) eqn:Hi; [|reflexivity].
  destruct (Z.leb_spec 0 (Qfloor q)) as [Hle|]; [|reflexivity].
  cbn [andb].
  unfold is_integer in Hi.
  destruct (Z.to_nat (Qfloor q)) as [|[|[|n]]] eqn:Hn.
  - replace (Qfloor q) with 0%Z in Hi by lia. congruence.
  - replace (Qfloor q) with 1%Z in Hi by lia. congruence.
  - replace (Qfloor q) with 2%Z in Hi by lia. congruence.
  - destruct n; reflexivity.
Qed.

(** C9. [getPriorityString] is a total function; on every argument of its
    declared type ([PriorityType | number | undefined]) the result is one
    of low, medium, high: the numbers 0, 1 and 2 give low, medium and
    high, every other number (negative, 3 or more, not an integer, NaN,
    infinite) gives medium, [undefined] gives medium, and a priority
    string is returned unchanged. *)
Theorem getPriorityString_spec (p : priority_arg) (Hty : well_typed_priority p) :
  In (getPriorityString p) ["low"; "medium"; "high"] /\
  getPriorityString p =
    match p with
    | PNumber n =>
        if number_eq n (number_of_Z 0) then "low"
        else if number_eq n (number_of_Z 1) then "medium"
        else if number_eq n (number_of_Z 2) then "high"
        else "medium"
    | PString s => s
    | PUndefined => "medium"
    end.
Proof.
  assert (Hval : getPriorityString p =
    match p with
    | PNumber n =>
        if number_eq n (number_of_Z 0) then "low"
        else if number_eq n (number_of_Z 1) then "medium"
        else if number_eq n (number_of_Z 2) then "high"
        else "medium"
    | PString s => s
    | PUndefined => "medium"
    end).
  { destruct p as [n|s|]; cbn [getPriorityString].
    - destruct n as [q| | |b]; cbn [number_eq number_of_Z]; try reflexivity.
      destruct (Qeq_bool q (inject_Z 0)) eqn:H0.
      { rewrite (index_by_number_Z _ 0 q H0) by lia. reflexivity. }
      destruct (Qeq_bool q (inject_Z 1)) eqn:H1.
      { rewrite (index_by_number_Z _ 1 q H1) by lia. reflexivity. }
      destruct (Qeq_bool q (inject_Z 2)) eqn:H2.
      { rewrite (index_by_number_Z _ 2 q H2) by lia. reflexivity. }
      rewrite index_by_number_other by assumption. reflexivity.
    - cbn in Hty. destruct Hty as [<-|[<-|[<-|[]]]]; reflexivity.
    - reflexivity. }
  split; [|exact Hval].
  rewrite Hval. destruct p as [n|s|].
  - repeat match goal with |- context [if ?b then _ else _] => destruct b end;
      cbn; tauto.
  - exact Hty.
  - cbn; tauto.
Qed.

Lemma getPriorityString_spec_witness :
  In (getPriorityString (PString "high")) ["low"; "medium"; "high"] /\
  getPriorityString (PString "high") = "high".
Proof.
  apply (getPriorityString_spec (PString "high")).
  cbn. tauto.
Defined.

(** ** Committing the calls of a handler *)

Section Turn.

Variable toLowerCase : string -> string.
Variable trim : string -> string.
Variable parent : effect -> Props -> Props.

Lemma flush_app (a1 a2 : list action) (w : World) :
  flush parent (a1 ++ a2) w = flush parent a2 (flush parent a1 w).
Proof. unfold flush. apply fold_left_app. Qed.

Lemma flush_trace (acts : list action) (w : World) :
  trace (flush parent acts w) = trace w ++ calls acts.
Proof.
  revert w. induction acts as [|a acts IH]; intros w.
  - cbn. now rewrite app_nil_r.
  - change (flush parent (a :: acts) w)
      with (flush parent acts (apply_action parent a w)).
    rewrite IH. destruct a; cbn; try reflexivity.
    now rewrite <- app_assoc.
Qed.

Lemma flush_st (acts : list action) (w : World) :
  st (flush parent acts w) = fold_left (fun s a => apply_setter a s) acts (st w).
Proof.
  revert w. induction acts as [|a acts IH]; intros w; [reflexivity|].
  change (flush parent (a :: acts) w)
    with (flush parent acts (apply_action parent a w)).
  rewrite IH. destruct a; reflexivity.
Qed.

Lemma flush_props (acts : list action) (w : World) :
  props (flush parent acts w) =
  fold_left (fun p e => if is_callback e then parent e p else p)
            (calls acts) (props w).
Proof.
  revert w. induction acts as [|a acts IH]; intros w; [reflexivity|].
  change (flush parent (a :: acts) w)
    with (flush parent acts (apply_action parent a w)).
  rewrite IH. destruct a; reflexivity.
Qed.

Lemma flush_props_quiet (acts : list action) (w : World) :
  List.filter is_callback (calls acts) = [] ->
  props (flush parent acts w) = props w.
Proof.
  rewrite flush_props. generalize (props w) as p.
  induction (calls acts) as [|e l IH]; intros p H; [reflexivity|].
  cbn in H |- *. destruct (is_callback e); [discriminate|]. now apply IH.
Qed.


(** The effects call nothing that reaches the owner, and set none of
    the cells any effect depends on: one pass after a render is all
    there is. *)
Lemma due_effects_quiet (old new : World) :
  List.filter is_callback (calls (due_effects old new)) = [].
Proof.
  unfold due_effects, effect_task, fetchParentTask,
    fetchTaskIntelligenceSetting, effect_tags, loadTags, effect_projects.
  repeat match goal with
         | |- context [if ?b then _ else _] => destruct b
         end; reflexivity.
Qed.

Lemma commit_props (old new : World) :
  props (commit parent old new) = props new.
Proof. apply flush_props_quiet, due_effects_quiet. Qed.

Lemma commit_trace (old new : World) :
  trace (commit parent old new) = trace new ++ calls (due_effects old new).
Proof. apply flush_trace. Qed.

Lemma due_effects_keep_deps (old new : World) :
  tagsLoaded (st (commit parent old new)) = tagsLoaded (st new) /\
  taskIntelligenceEnabled (st (commit parent old new)) =
    taskIntelligenceEnabled (st new).
Proof.
  unfold commit. rewrite flush_st.
  unfold due_effects, effect_task, fetchParentTask,
    fetchTaskIntelligenceSetting, effect_tags, loadTags, effect_projects.
  repeat match goal with
         | |- context [if ?b then _ else _] => destruct b
         end; split; reflexivity.
Qed.

Lemma step_inv (w w' : World) (e : event) :
  step toLowerCase trim parent w e = Some w' ->
  offered w e = true /\
  w' = commit parent w
         (flush parent (handler toLowerCase trim w e)
            match e with
            | EvProps p => with_props p (with_pending (settle e (pending w)) w)
            | _ => with_pending (settle e (pending w)) w
            end).
Proof.
  unfold step. destruct (offered w e); [|discriminate].
  intros [= <-]. split; reflexivity.
Qed.

End Turn.

Section Session.

Variable toLowerCase : string -> string.
Variable trim : string -> string.
Variable parent : effect -> Props -> Props.

Lemma step_offered (w : World) (e : event) :
  offered w e = true ->
  step toLowerCase trim parent w e =
  Some (commit parent w
          (flush parent (handler toLowerCase trim w e)
             match e with
             | EvProps p => with_props p (with_pending (settle e (pending w)) w)
             | _ => with_pending (settle e (pending w)) w
             end)).
Proof. intros H. unfold step. now rewrite H. Qed.

Lemma commit_same_deps (old new : World) :
  deps_task old = deps_task new ->
  deps_tags old = deps_tags new ->
  commit parent old new = new.
Proof.
  intros H1 H2. unfold commit, due_effects.
  rewrite (bool_decide_eq_true_2 _ H1), (bool_decide_eq_true_2 _ H2).
  assert (Ho : isOpen (props old) = isOpen (props new))
    by (unfold deps_tags in H2; congruence).
  assert (Hp : projects_ref (props old) = projects_ref (props new))
    by (unfold deps_task in H1; congruence).
  rewrite Ho, Bool.eqb_reflx, Hp, Nat.eqb_refl. reflexivity.
Qed.

Lemma strict_eq_VStr (v : jsval) (s : string) :
  strict_eq v (VStr s) = true <-> v = VStr s.
Proof.
  destruct v; cbn; try (split; [discriminate | intros [=]]).
  rewrite String.eqb_eq. split; [now intros -> | now intros [= ->]].
Qed.

(** ** Loading the parent task *)

(** C4. For a task whose [recurring_parent_id] is absent ([undefined],
    missing or [null]), loading the parent sets the parent to [null]
    and calls nothing: no [fetchTaskById] is issued, neither on the
    first render nor in any later turn that ends with such a task. *)
Theorem loadParent_absent_no_fetch (p : Props) :
  absent (get (task p) "recurring_parent_id") ->
  (forall w,
      parentTask (st (flush parent (fetchParentTask p) w)) = None /\
      trace (flush parent (fetchParentTask p) w) = trace w /\
      pending (flush parent (fetchParentTask p) w) = pending w) /\
  parentTask (st (mount parent p)) = None /\
  List.filter is_FetchTaskById (trace (mount parent p)) = [] /\
  (forall w e w',
      step toLowerCase trim parent w e = Some w' -> props w' = p ->
      List.filter is_FetchTaskById (trace w') =
      List.filter is_FetchTaskById (trace w)).
Proof.
  intros Habs.
  assert (Hf : fetchParentTask p = [SetParentTask None]).
  { unfold fetchParentTask. destruct Habs as [-> | ->]; reflexivity. }
  split; [|split; [|split]].
  - intros w. rewrite Hf. cbn. auto.
  - unfold mount. rewrite flush_st. unfold effect_task. rewrite Hf.
    unfold fetchTaskIntelligenceSetting, effect_tags, loadTags, effect_projects.
    split_ifs; reflexivity.
  - unfold mount. rewrite flush_trace. unfold effect_task. rewrite Hf.
    unfold fetchTaskIntelligenceSetting, effect_tags, loadTags, effect_projects.
    split_ifs; reflexivity.
  - intros w e w' Hstep Hp.
    apply step_inv in Hstep as [_ ->].
    rewrite commit_props in Hp.
    rewrite commit_trace, flush_trace, !List.filter_app.
    set (w2 := match e with EvProps _ => _ | _ => _ end) in *.
    assert (Hh : List.filter is_FetchTaskById (calls (handler toLowerCase trim w e)) = []).
    { unfold handler, handleChange, handleParentRecurrenceChange,
        handleEditParent, handleDeleteConfirm, handleCreateProject.
      destruct e; cbn;
        repeat match goal with
               | |- context [if ?b then _ else _] => destruct b; cbn
               | |- context [match ?o with Some _ => _ | None => _ end] =>
                   destruct o; cbn
               end; reflexivity. }
    assert (Ht : trace w2 = trace w) by (subst w2; destruct e; reflexivity).
    rewrite Hh, Ht, app_nil_r.
    unfold due_effects, effect_task. rewrite Hp, Hf.
    unfold fetchTaskIntelligenceSetting, effect_tags, loadTags, effect_projects.
    split_ifs; cbn; now rewrite app_nil_r.
Qed.

(** C3. When the fetch of the parent fails while the session is open,
    the session goes to Open(no-parent): the parent is set to [null]
    and the loading flag is cleared, the error is written to the
    console, no toast is shown, and the session stays open with the
    props it had. *)
Theorem parent_fetch_failure_no_parent (w : World) (err : jsval) :
  isOpen (props w) = true ->
  0 < parent_fetches (pending w) ->
  exists w',
    step toLowerCase trim parent w (EvParentRejected err) = Some w' /\
    session_state w' = OpenNoParent /\
    parentTask (st w') = None /\
    trace w' = trace w ++ [ConsoleError "Error fetching parent task:" err] /\
    List.filter is_toast (trace w') = List.filter is_toast (trace w) /\
    props w' = props w.
Proof.
  intros Hopen Hpend. eexists. split.
  - rewrite step_offered by (cbn; now apply bool_decide_eq_true_2).
    rewrite commit_same_deps by reflexivity. reflexivity.
  - cbn. unfold session_state. cbn. rewrite Hopen. cbn.
    rewrite List.filter_app. cbn. rewrite app_nil_r. auto.
Qed.

(** ** The task-intelligence flag *)

Lemma due_effects_no_toast (old new : World) :
  List.filter is_toast (calls (due_effects old new)) = [].
Proof.
  unfold due_effects, effect_task, fetchParentTask,
    fetchTaskIntelligenceSetting, effect_tags, loadTags, effect_projects.
  split_ifs; reflexivity.
Qed.

(** C6. The flag starts out enabled, and when its fetch fails it is set
    to enabled: the error is written to the console and goes no
    further (no toast, nothing thrown, the props stay as they were). *)
Theorem flag_fetch_failure_defaults_enabled (w : World) (err : jsval) :
  0 < flag_fetches (pending w) ->
  (forall p, taskIntelligenceEnabled (initial_state p) = true) /\
  exists w',
    step toLowerCase trim parent w (EvFlagRejected err) = Some w' /\
    taskIntelligenceEnabled (st w') = true /\
    (exists rest,
        trace w' =
          trace w
          ++ ConsoleError "Error fetching task intelligence setting:" err
          :: rest /\
        List.filter is_toast rest = []) /\
    props w' = props w.
Proof.
  intros Hpend. split; [reflexivity|]. eexists. split.
  - rewrite step_offered by (cbn; now apply bool_decide_eq_true_2).
    reflexivity.
  - split; [|split].
    + now rewrite (proj2 (due_effects_keep_deps parent _ _)).
    + eexists. split.
      * rewrite commit_trace. cbn. rewrite <- app_assoc. reflexivity.
      * apply due_effects_no_toast.
    + now rewrite commit_props.
Qed.

(** ** Status *)

(** C8. Changing the status stores the new status in the pending
    payload; when the new status is in_progress the same update also
    sets [today] to true, and for every other value [today] is left as
    it was. *)
Theorem status_in_progress_sets_today (w : World) (value : jsval) :
  isOpen (props w) = true ->
  exists w',
    step toLowerCase trim parent w (EvStatusChange value) = Some w' /\
    observations toLowerCase trim parent w [EvStatusChange value] = [w'] /\
    formData (st w') !! "status" = Some value /\
    (value = VStr "in_progress" ->
     formData (st w') !! "today" = Some (VBool true)) /\
    (value <> VStr "in_progress" ->
     formData (st w') !! "today" = formData (st w) !! "today").
Proof.
  intros Hopen.
  assert (Hstep : step toLowerCase trim parent w (EvStatusChange value) =
                  Some (flush parent (onStatusChange (st w) value) w)).
  { rewrite step_offered by exact Hopen.
    rewrite commit_same_deps by reflexivity.
    destruct w as [p s t q]. destruct q. reflexivity. }
  eexists. split; [exact Hstep|].
  split; [cbn [observations]; now rewrite Hstep|].
  cbn. destruct (strict_eq value (VStr "in_progress")) eqn:E.
  - apply strict_eq_VStr in E. subst value.
    split; [|split]; [now simplify_map_eq | now simplify_map_eq | congruence].
  - split; [|split]; [now simplify_map_eq | | now simplify_map_eq].
    intros ->. cbn in E. discriminate.
Qed.

(** ** Going to the parent task *)

(** C5, as amended. With a parent task loaded and [onEditParentTask]
    supplied, the handler first signals the owner to edit the parent
    task and then closes the child's session; nothing else reaches the
    owner in that turn. With no parent loaded the operation is not
    offered, and the handler, were it invoked, does nothing. *)
Theorem edit_parent_signals_then_closes (w : World) :
  isOpen (props w) = true ->
  (forall parent_task,
      parentTask (st w) = Some parent_task ->
      onEditParentTask (props w) = true ->
      exists w' rest,
        step toLowerCase trim parent w EvEditParent = Some w' /\
        trace w' =
          trace w ++ [OnEditParentTask parent_task; OnClose] ++ rest /\
        List.filter is_callback rest = [] /\
        props w' =
          parent OnClose (parent (OnEditParentTask parent_task) (props w))) /\
  (parentTask (st w) = None ->
   step toLowerCase trim parent w EvEditParent = None /\
   flush parent (handleEditParent (st w) (props w)) w = w).
Proof.
  intros Hopen. split.
  - intros pt Hpt Hcb. eexists. eexists. split; [|split; [|split]].
    + rewrite step_offered; [reflexivity|].
      cbn. rewrite Hopen, Hpt. reflexivity.
    + rewrite commit_trace, flush_trace. unfold handler, handleEditParent.
      rewrite Hpt, Hcb. rewrite <- app_assoc. reflexivity.
    + apply due_effects_quiet.
    + rewrite commit_props. unfold handler, handleEditParent.
      rewrite Hpt, Hcb. reflexivity.
  - intros Hpt. split.
    + unfold step. cbn. rewrite Hopen, Hpt. reflexivity.
    + unfold handleEditParent. rewrite Hpt. reflexivity.
Qed.

(** ** Editing the recurrence of the parent *)

(** C1, as amended. With a parent task loaded, one turn puts the edited
    field and value into both the local copy of the parent and the
    pending form data and sets [update_parent_recurrence] to true there
    (for the field [update_parent_recurrence] itself the form data
    holds true whatever the value, so the value is taken to be true);
    the only state an observer sees after the edit has both. Saving
    next hands the owner a payload with [update_parent_recurrence] true
    and, for every field other than [tags], the edited field and value;
    the payload's [tags] are always built from the list of tag names. *)
Theorem parent_edit_then_commit (w : World) (parent_task : Task)
    (field : string) (value : jsval) :
  isOpen (props w) = true ->
  parentTask (st w) = Some parent_task ->
  (field = "update_parent_recurrence" -> value = VBool true) ->
  exists w1 w2 snapshot payload rest,
    step toLowerCase trim parent w (EvParentRecurrenceChange field value) = Some w1 /\
    observations toLowerCase trim parent w [EvParentRecurrenceChange field value] = [w1] /\
    parentTask (st w1) = Some snapshot /\
    snapshot !! field = Some value /\
    formData (st w1) !! field = Some value /\
    formData (st w1) !! "update_parent_recurrence" = Some (VBool true) /\
    trace w1 = trace w /\
    step toLowerCase trim parent w1 EvSubmit = Some w2 /\
    trace w2 = trace w1 ++ OnSave payload :: rest /\
    payload !! "update_parent_recurrence" = Some (VBool true) /\
    (field <> "tags" -> payload !! field = Some value) /\
    payload !! "tags" = Some (tag_objects (tags (st w))).
Proof.
  intros Hopen Hpt Hupr.
  set (acts := handleParentRecurrenceChange (st w) field value).
  assert (Hacts : acts =
    [SetParentTask (Some (<[field := value]> parent_task));
     SetFormData (fun prev =>
       <["update_parent_recurrence" := VBool true]> (<[field := value]> prev))]).
  { subst acts. unfold handleParentRecurrenceChange. now rewrite Hpt. }
  assert (Hstep : step toLowerCase trim parent w (EvParentRecurrenceChange field value) =
                  Some (flush parent acts w)).
  { rewrite step_offered by (cbn; rewrite Hopen, Hpt; reflexivity).
    cbn [handler]. fold acts. rewrite Hacts.
    rewrite commit_same_deps by reflexivity.
    destruct w as [p s t q]. destruct q. reflexivity. }
  assert (Hform : formData (st (flush parent acts w)) !! field = Some value).
  { rewrite Hacts. cbn.
    destruct (decide (field = "update_parent_recurrence")) as [->|Hne].
    - rewrite Hupr by reflexivity. now simplify_map_eq.
    - now simplify_map_eq. }
  exists (flush parent acts w). eexists. eexists. eexists. eexists.
  split; [exact Hstep|].
  split; [cbn [observations]; now rewrite Hstep|].
  split; [rewrite Hacts; reflexivity|].
  split; [now simplify_map_eq|].
  split; [exact Hform|].
  split; [rewrite Hacts; cbn; now simplify_map_eq|].
  split; [rewrite Hacts; reflexivity|].
  split.
  { rewrite step_offered; [reflexivity|].
    rewrite Hacts. cbn. exact Hopen. }
  split.
  { rewrite commit_trace, flush_trace. cbn [handler handleSubmit calls omap].
    cbn [with_pending settle trace]. rewrite <- app_assoc. reflexivity. }
  split.
  { rewrite Hacts. cbn.
    rewrite lookup_insert_ne by discriminate. now simplify_map_eq. }
  split.
  - intros Htags. rewrite lookup_insert_ne by congruence. exact Hform.
  - rewrite Hacts. cbn. now simplify_map_eq.
Qed.

(** ** A parent fetch that comes back after the session closed *)

(** C2, as amended. Once the session is closed, the fetch of the parent
    that is still in flight leaves it closed whenever it completes, but
    its result is applied all the same: on success the fetched task is
    stored as the parent, on failure [null] is, and the loading flag is
    cleared. Whether the session is open is asked before a fetch is
    issued (a closed session issues none), not when the result comes
    back. *)
Theorem late_parent_fetch_keeps_closed_but_applies (w : World) :
  isOpen (props w) = false ->
  0 < parent_fetches (pending w) ->
  (forall fetched,
      exists w',
        step toLowerCase trim parent w (EvParentResolved fetched) = Some w' /\
        session_state w' = Closed /\
        parentTask (st w') = Some fetched /\
        parentTaskLoading (st w') = false /\
        props w' = props w /\ trace w' = trace w) /\
  (forall err,
      exists w',
        step toLowerCase trim parent w (EvParentRejected err) = Some w' /\
        session_state w' = Closed /\
        parentTask (st w') = None /\
        parentTaskLoading (st w') = false /\
        props w' = props w) /\
  fetchParentTask (props w) = [SetParentTask None].
Proof.
  intros Hclosed Hpend. split; [|split].
  - intros fetched. eexists. split.
    + rewrite step_offered by (cbn; now apply bool_decide_eq_true_2).
      rewrite commit_same_deps by reflexivity. reflexivity.
    + cbn. unfold session_state. cbn. rewrite Hclosed. auto.
  - intros err. eexists. split.
    + rewrite step_offered by (cbn; now apply bool_decide_eq_true_2).
      rewrite commit_same_deps by reflexivity. reflexivity.
    + cbn. unfold session_state. cbn. rewrite Hclosed. auto.
  - unfold fetchParentTask. rewrite Hclosed, andb_false_r. reflexivity.
Qed.

(** ** The analysis of the title *)

Lemma commit_taskAnalysis (old new : World) :
  taskAnalysis (st (commit parent old new)) =
  if bool_decide (deps_task old = deps_task new) then taskAnalysis (st new)
  else if isOpen (props new) && truthy (get (task (props new)) "name")
          && taskIntelligenceEnabled (st new)
       then Some (analyzeTaskName (text_of (get (task (props new)) "name")))
       else None.
Proof.
  unfold commit. rewrite flush_st.
  unfold due_effects, effect_task, fetchParentTask,
    fetchTaskIntelligenceSetting, effect_tags, loadTags, effect_projects.
  split_ifs; reflexivity.
Qed.

Lemma handler_keeps_no_analysis (w : World) (e : event) (w2 : World) :
  st w2 = st w ->
  taskIntelligenceEnabled (st w) = false ->
  taskAnalysis (st (flush parent (handler toLowerCase trim w e) w2)) = taskAnalysis (st w).
Proof.
  intros Hst Hoff. rewrite flush_st, Hst.
  unfold handler, handleChange, handleParentRecurrenceChange,
    handleEditParent, handleDeleteConfirm, handleCreateProject.
  destruct e; cbn; rewrite ?Hoff, ?andb_false_r; split_ifs; reflexivity.
Qed.

Lemma step_no_analysis_while_disabled (w w' : World) (e : event) :
  step toLowerCase trim parent w e = Some w' ->
  no_analysis_while_disabled w -> no_analysis_while_disabled w'.
Proof.
  intros Hstep Hinv Hoff. apply step_inv in Hstep as [_ ->].
  rewrite (proj2 (due_effects_keep_deps parent _ _)) in Hoff.
  rewrite commit_taskAnalysis. case_bool_decide as Hdeps.
  - assert (Hw : taskIntelligenceEnabled (st w) = false)
      by (unfold deps_task in Hdeps; congruence).
    rewrite handler_keeps_no_analysis; [now apply Hinv | | exact Hw].
    destruct e; reflexivity.
  - now rewrite Hoff, andb_false_r.
Qed.

Lemma run_no_analysis_while_disabled (es : list event) (w w' : World) :
  run toLowerCase trim parent w es = Some w' ->
  no_analysis_while_disabled w -> no_analysis_while_disabled w'.
Proof.
  revert w. induction es as [|e es IH]; intros w Hrun Hinv.
  - cbn in Hrun. now injection Hrun as <-.
  - cbn in Hrun. destruct (step toLowerCase trim parent w e) as [w1|] eqn:Hstep; [|discriminate].
    eapply IH; [exact Hrun|]. eapply step_no_analysis_while_disabled; eauto.
Qed.

(** C7, as amended. With task intelligence enabled, opening the modal
    on a task whose title is not empty, or editing the name to any
    title, runs the analyzer on the title and keeps its result (for
    "Pay rent tomorrow" the result has the due-date candidate
    "tomorrow"); opening on an empty title keeps no analysis. With task
    intelligence disabled, opening keeps no analysis, editing the name
    leaves the analysis as it was, and in every state reached from the
    first render the analysis is null. *)
Theorem analysis_follows_intelligence_flag (title : string) :
  (forall w,
      isOpen (props w) = true ->
      exists w',
        step toLowerCase trim parent w (EvChange "name" title) = Some w' /\
        taskAnalysis (st w') =
          if taskIntelligenceEnabled (st w)
          then Some (analyzeTaskName title)
          else taskAnalysis (st w)) /\
  (forall w p,
      isOpen (props w) = false -> isOpen p = true ->
      get (task p) "name" = VStr title ->
      exists w',
        step toLowerCase trim parent w (EvProps p) = Some w' /\
        taskAnalysis (st w') =
          if taskIntelligenceEnabled (st w) && negb (String.eqb title "")
          then Some (analyzeTaskName title)
          else None) /\
  (forall p,
      isOpen p = true -> get (task p) "name" = VStr title ->
      taskAnalysis (st (mount parent p)) =
        if negb (String.eqb title "") then Some (analyzeTaskName title)
        else None) /\
  due_date_candidate (analyzeTaskName "Pay rent tomorrow") = Some "tomorrow" /\
  (forall p es w,
      run toLowerCase trim parent (mount parent p) es = Some w ->
      taskIntelligenceEnabled (st w) = false -> taskAnalysis (st w) = None).
Proof.
  split; [|split; [|split; [|split]]].
  - intros w Hopen. eexists. split.
    + rewrite step_offered by exact Hopen.
      rewrite commit_same_deps; [reflexivity| |].
      * unfold deps_task. rewrite flush_props_quiet, flush_st.
        -- cbn. unfold handleChange. cbn.
           destruct (taskIntelligenceEnabled (st w)); reflexivity.
        -- cbn. unfold handleChange. split_ifs; reflexivity.
      * unfold deps_tags. rewrite flush_props_quiet, flush_st.
        -- cbn. unfold handleChange. cbn.
           destruct (taskIntelligenceEnabled (st w)); reflexivity.
        -- cbn. unfold handleChange. split_ifs; reflexivity.
    + rewrite flush_st. cbn.
      destruct (taskIntelligenceEnabled (st w)); reflexivity.
  - intros w p Hclosed Hopen Hname. eexists. split.
    + rewrite step_offered by reflexivity. reflexivity.
    + rewrite commit_taskAnalysis. cbn.
      rewrite bool_decide_eq_false_2.
      * rewrite Hopen, Hname. cbn.
        destruct (String.eqb title ""), (taskIntelligenceEnabled (st w));
          reflexivity.
      * unfold deps_task. cbn. congruence.
  - intros p Hopen Hname. unfold mount. rewrite flush_st.
    unfold effect_task, fetchParentTask, fetchTaskIntelligenceSetting,
      effect_tags, loadTags.
    rewrite Hopen, Hname. cbn.
    destruct (String.eqb title ""); cbn; split_ifs; reflexivity.
  - reflexivity.
  - intros p es w Hrun.
    apply (run_no_analysis_while_disabled es _ _ Hrun).
    intros Hoff. unfold mount in Hoff. rewrite flush_st in Hoff.
    unfold effect_task, fetchParentTask, fetchTaskIntelligenceSetting,
      effect_tags, loadTags in Hoff.
    revert Hoff. split_ifs; cbn; discriminate.
Qed.

(** ** Fetching the available tags *)




Section OwnerCloses.

(** The owner closes the modal when [onClose] is called. *)
Hypothesis owner_closes : forall p, isOpen (parent OnClose p) = false.




End OwnerCloses.

(** Going to the parent task calls [onClose] directly, not through
    [handleClose]: that way of closing leaves [tagsLoaded] as it is. *)
Lemma edit_parent_keeps_tagsLoaded (w w' : World) :
  step toLowerCase trim parent w EvEditParent = Some w' ->
  tagsLoaded (st w') = tagsLoaded (st w).
Proof.
  intros Hstep. apply step_inv in Hstep as [_ ->].
  rewrite (proj1 (due_effects_keep_deps parent _ _)), flush_st.
  unfold handler, handleEditParent. cbn. split_ifs; reflexivity.
Qed.





End Session.

(** * The properties on sample sessions *)

(** C1: the edited field can be [tags], and then the payload that is
    saved does not carry the edited value: its [tags] come from the list
    of tag names. *)
Lemma parent_edit_of_tags_is_not_committed :
  exists w payload,
    run lower trim_spaces closing_owner loaded_session
      [EvParentRecurrenceChange "tags" (VStr "weekly"); EvSubmit] = Some w /\
    saved (trace w) = [payload] /\
    payload !! "update_parent_recurrence" = Some (VBool true) /\
    payload !! "tags" = Some (VArr []) /\
    payload !! "tags" <> Some (VStr "weekly").
Proof.
  eexists. eexists. split; [vm_compute; reflexivity|].
  split; [vm_compute; reflexivity|].
  split; [vm_compute; reflexivity|].
  assert (H : forall o : option jsval, o = Some (VArr []) ->
                o = Some (VArr []) /\ o <> Some (VStr "weekly"))
    by (intros o ->; split; [reflexivity | discriminate]).
  apply H. vm_compute. reflexivity.
Qed.

(** The same for the field [update_parent_recurrence]: the form data
    holds true, not the value passed. *)
Example parent_edit_of_the_flag_itself :
  exists w,
    step lower trim_spaces closing_owner loaded_session
      (EvParentRecurrenceChange "update_parent_recurrence" (VBool false))
    = Some w /\
    formData (st w) !! "update_parent_recurrence" = Some (VBool true).
Proof. eexists. split; vm_compute; reflexivity. Qed.

Lemma parent_edit_then_commit_witness :
  isOpen (props loaded_session) = true /\
  parentTask (st loaded_session) = Some rent_parent /\
  exists w1 w2 payload rest,
    step lower trim_spaces closing_owner loaded_session
      (EvParentRecurrenceChange "recurrence_type" (VStr "weekly")) = Some w1 /\
    step lower trim_spaces closing_owner w1 EvSubmit = Some w2 /\
    trace w2 = trace w1 ++ OnSave payload :: rest /\
    payload !! "update_parent_recurrence" = Some (VBool true) /\
    payload !! "recurrence_type" = Some (VStr "weekly").
Proof.
  assert (H1 : isOpen (props loaded_session) = true) by reflexivity.
  assert (H2 : parentTask (st loaded_session) = Some rent_parent)
    by reflexivity.
  split; [exact H1|]. split; [exact H2|].
  destruct (parent_edit_then_commit lower trim_spaces closing_owner loaded_session rent_parent
              "recurrence_type" (VStr "weekly") H1 H2)
    as (w1 & w2 & snapshot & payload & rest & Hs1 & _ & _ & _ & _ & _ & _
        & Hs2 & Ht & Hu & Hf & _).
  { intros H. discriminate H. }
  exists w1, w2, payload, rest.
  split; [exact Hs1|]. split; [exact Hs2|]. split; [exact Ht|].
  split; [exact Hu|]. apply Hf. intros H. discriminate H.
Defined.

(** C2: the session is closed while the parent is loading, and then the
    fetch resolves: the session is still closed, and the parent that was
    [null] is now the fetched task. *)
Lemma late_parent_result_is_applied :
  exists w,
    step lower trim_spaces closing_owner closed_while_loading (EvParentResolved rent_parent)
    = Some w /\
    session_state closed_while_loading = Closed /\
    parentTask (st closed_while_loading) = None /\
    session_state w = Closed /\
    parentTask (st w) = Some rent_parent /\
    parentTask (st w) <> parentTask (st closed_while_loading).
Proof.
  eexists. split; [vm_compute; reflexivity|].
  assert (H : forall a b : option Task,
             b = None -> a = Some rent_parent ->
             b = None /\ session_state closed_while_loading = Closed ->
             session_state closed_while_loading = Closed /\ b = None /\
             Closed = Closed /\ a = Some rent_parent /\ a <> b).
  { intros a b -> -> [_ Hc]. repeat split; try assumption. discriminate. }
  apply H; [vm_compute; reflexivity | vm_compute; reflexivity |].
  split; vm_compute; reflexivity.
Qed.

Lemma late_parent_fetch_witness :
  isOpen (props closed_while_loading) = false /\
  0 < parent_fetches (pending closed_while_loading) /\
  exists w,
    step lower trim_spaces closing_owner closed_while_loading (EvParentResolved rent_parent)
    = Some w /\
    session_state w = Closed /\
    parentTask (st w) = Some rent_parent.
Proof.
  assert (H1 : isOpen (props closed_while_loading) = false) by reflexivity.
  assert (H2 : 0 < parent_fetches (pending closed_while_loading))
    by (vm_compute; lia).
  split; [exact H1|]. split; [exact H2|].
  destruct (late_parent_fetch_keeps_closed_but_applies lower trim_spaces closing_owner
              closed_while_loading H1 H2) as (Hres & _ & _).
  destruct (Hres rent_parent) as (w & Hs & Hc & Hp & _).
  exists w. auto.
Defined.

Lemma parent_fetch_failure_witness :
  isOpen (props child_session) = true /\
  0 < parent_fetches (pending child_session) /\
  exists w,
    step lower trim_spaces closing_owner child_session (EvParentRejected (VStr "not found"))
    = Some w /\
    session_state w = OpenNoParent.
Proof.
  assert (H1 : isOpen (props child_session) = true) by reflexivity.
  assert (H2 : 0 < parent_fetches (pending child_session))
    by (vm_compute; lia).
  split; [exact H1|]. split; [exact H2|].
  destruct (parent_fetch_failure_no_parent lower trim_spaces closing_owner child_session
              (VStr "not found") H1 H2) as (w & Hs & Hn & _).
  exists w. auto.
Defined.

Lemma loadParent_absent_witness :
  absent (get untitled_task "recurring_parent_id") /\
  parentTask (st (mount closing_owner (props_for true untitled_task 0))) = None /\
  List.filter is_FetchTaskById
    (trace (mount closing_owner (props_for true untitled_task 0))) = [].
Proof.
  assert (H : absent (get (task (props_for true untitled_task 0))
                        "recurring_parent_id")) by (left; reflexivity).
  split; [exact H|].
  destruct (loadParent_absent_no_fetch lower trim_spaces closing_owner _ H) as (_ & H1 & H2 & _).
  split; assumption.
Defined.

(** C5: with the parent loaded, the owner is told to edit the parent
    first and to close afterwards. *)
Lemma edit_parent_close_follows_signal :
  exists w,
    step lower trim_spaces closing_owner loaded_session EvEditParent = Some w /\
    called_before is_OnClose is_OnEditParentTask (trace w) = false /\
    called_before is_OnEditParentTask is_OnClose (trace w) = true.
Proof. eexists. split; [|split]; vm_compute; reflexivity. Qed.

Lemma edit_parent_witness :
  isOpen (props loaded_session) = true /\
  parentTask (st loaded_session) = Some rent_parent /\
  onEditParentTask (props loaded_session) = true /\
  exists w rest,
    step lower trim_spaces closing_owner loaded_session EvEditParent = Some w /\
    trace w =
      trace loaded_session ++ [OnEditParentTask rent_parent; OnClose] ++ rest.
Proof.
  assert (H1 : isOpen (props loaded_session) = true) by reflexivity.
  assert (H2 : parentTask (st loaded_session) = Some rent_parent)
    by reflexivity.
  assert (H3 : onEditParentTask (props loaded_session) = true) by reflexivity.
  split; [exact H1|]. split; [exact H2|]. split; [exact H3|].
  destruct (edit_parent_signals_then_closes lower trim_spaces closing_owner loaded_session H1)
    as (Hsome & _).
  destruct (Hsome rent_parent H2 H3) as (w & rest & Hs & Ht & _).
  exists w, rest. auto.
Defined.

Lemma flag_fetch_failure_witness :
  0 < flag_fetches (pending child_session) /\
  exists w,
    step lower trim_spaces closing_owner child_session (EvFlagRejected (VStr "offline")) = Some w /\
    taskIntelligenceEnabled (st w) = true.
Proof.
  assert (H : 0 < flag_fetches (pending child_session)) by (vm_compute; lia).
  split; [exact H|].
  destruct (flag_fetch_failure_defaults_enabled lower trim_spaces closing_owner child_session
              (VStr "offline") H) as (_ & w & Hs & He & _).
  exists w. auto.
Defined.

(** C7: opening the modal on a task with an empty title, with task
    intelligence enabled, keeps no analysis. *)
Lemma opening_on_empty_title_keeps_no_analysis :
  exists w,
    step lower trim_spaces closing_owner (mount closing_owner (props_for false untitled_task 0))
      (EvProps (props_for true untitled_task 0)) = Some w /\
    isOpen (props w) = true /\
    get (task (props w)) "name" = VStr "" /\
    taskIntelligenceEnabled (st w) = true /\
    taskAnalysis (st w) = None.
Proof. eexists. repeat split; vm_compute; reflexivity. Qed.

Lemma analysis_follows_intelligence_flag_witness :
  isOpen (props child_session) = true /\
  exists w,
    step lower trim_spaces closing_owner child_session (EvChange "name" "Pay rent tomorrow")
    = Some w /\
    taskAnalysis (st w) = Some (analyzeTaskName "Pay rent tomorrow").
Proof.
  assert (H1 : isOpen (props child_session) = true) by reflexivity.
  split; [exact H1|].
  destruct (analysis_follows_intelligence_flag lower trim_spaces closing_owner
              "Pay rent tomorrow") as (Hedit & _).
  destruct (Hedit child_session H1) as (w & Hs & Ha).
  exists w. split; [exact Hs | exact Ha].
Defined.

Lemma status_in_progress_witness :
  isOpen (props child_session) = true /\
  exists w,
    step lower trim_spaces closing_owner child_session (EvStatusChange (VStr "in_progress"))
    = Some w /\
    formData (st w) !! "status" = Some (VStr "in_progress") /\
    formData (st w) !! "today" = Some (VBool true).
Proof.
  assert (H1 : isOpen (props child_session) = true) by reflexivity.
  split; [exact H1|].
  destruct (status_in_progress_sets_today lower trim_spaces closing_owner child_session
              (VStr "in_progress") H1) as (w & Hs & _ & Hst & Hin & _).
  exists w. split; [exact Hs|]. split; [exact Hst|]. apply Hin. reflexivity.
Defined.



(** * Further properties of the component *)

Section Coverage.

Variable toLowerCase : string -> string.
Variable trim : string -> string.
Variable parent : effect -> Props -> Props.

Lemma settled_trace (w : World) (e : event) :
  trace match e with
        | EvProps p => with_props p (with_pending (settle e (pending w)) w)
        | _ => with_pending (settle e (pending w)) w
        end = trace w.
Proof. destruct e; reflexivity. Qed.

Lemma settled_st (w : World) (e : event) :
  st match e with
     | EvProps p => with_props p (with_pending (settle e (pending w)) w)
     | _ => with_pending (settle e (pending w)) w
     end = st w.
Proof. destruct e; reflexivity. Qed.

Lemma deps_task_commit (old new : World) :
  deps_task (commit parent old new) = deps_task new.
Proof.
  unfold deps_task. rewrite commit_props.
  now rewrite (proj2 (due_effects_keep_deps parent old new)).
Qed.

Lemma deps_tags_commit (old new : World) :
  deps_tags (commit parent old new) = deps_tags new.
Proof.
  unfold deps_tags. rewrite commit_props.
  now rewrite (proj1 (due_effects_keep_deps parent old new)).
Qed.

(** The effects that run after a render can be read off the state they
    leave behind. *)
Lemma due_effects_commit (old new : World) :
  due_effects old (commit parent old new) = due_effects old new.
Proof.
  unfold due_effects at 1.
  rewrite deps_task_commit, deps_tags_commit, commit_props.
  unfold effect_task, effect_tags, loadTags.
  rewrite (proj1 (due_effects_keep_deps parent old new)),
    (proj2 (due_effects_keep_deps parent old new)).
  reflexivity.
Qed.

(** What one turn adds to the calls made: those of the handler, then
    those of the effects. *)
Lemma step_trace (w w' : World) (e : event) :
  step toLowerCase trim parent w e = Some w' ->
  trace w' = trace w ++ calls (handler toLowerCase trim w e) ++ calls (due_effects w w').
Proof.
  intros Hstep. apply step_inv in Hstep as [_ ->].
  rewrite due_effects_commit, commit_trace, flush_trace, settled_trace.
  now rewrite app_assoc.
Qed.

Lemma step_filter (kind : effect -> bool) (w w' : World) (e : event) :
  step toLowerCase trim parent w e = Some w' ->
  issued kind w' =
  issued kind w ++ List.filter kind (calls (handler toLowerCase trim w e))
  ++ List.filter kind (calls (due_effects w w')).
Proof.
  intros Hstep. unfold issued.
  now rewrite (step_trace w w' e Hstep), !List.filter_app.
Qed.

Lemma saved_app (l1 l2 : list effect) : saved (l1 ++ l2) = saved l1 ++ saved l2.
Proof. apply omap_app. Qed.

(** X1. The owner is handed a task to save on submit and at no other
    time: a submit calls [onSave] once, with the form data whose [tags]
    are rebuilt from the list of tag names, and no other event (cancel,
    Escape, delete, going to the parent, a fetch coming back, new props)
    calls it. *)
Theorem save_only_on_submit (w w' : World) (e : event) :
  step toLowerCase trim parent w e = Some w' ->
  saved (trace w') =
  saved (trace w)
  ++ match e with
     | EvSubmit => [<["tags" := tag_objects (tags (st w))]> (formData (st w))]
     | _ => []
     end.
Proof.
  intros Hstep. rewrite (step_trace w w' e Hstep), !saved_app.
  assert (Hdue : saved (calls (due_effects w w')) = []).
  { unfold due_effects, effect_task, fetchParentTask,
      fetchTaskIntelligenceSetting, effect_tags, loadTags, effect_projects.
    split_ifs; reflexivity. }
  rewrite Hdue, app_nil_r. f_equal.
  unfold handler, handleChange, handleParentRecurrenceChange,
    handleEditParent, handleDeleteConfirm, handleCreateProject.
  destruct e; cbn; split_ifs; reflexivity.
Qed.

(** X2. The task-intelligence flag is fetched in exactly the turns that
    open the modal (and on the first render of an open modal): a turn
    calls [getTaskIntelligenceEnabled] once when [isOpen] goes from false
    to true and never otherwise. *)
Theorem flag_fetched_exactly_on_opening :
  (forall p,
      issued is_GetTaskIntelligenceEnabled (mount parent p) =
      if isOpen p then [GetTaskIntelligenceEnabled] else []) /\
  (forall w w' e,
      step toLowerCase trim parent w e = Some w' ->
      issued is_GetTaskIntelligenceEnabled w' =
      issued is_GetTaskIntelligenceEnabled w
      ++ if negb (isOpen (props w)) && isOpen (props w')
         then [GetTaskIntelligenceEnabled] else []).
Proof.
  split.
  - intros p. unfold issued, mount. rewrite flush_trace.
    unfold effect_task, fetchParentTask, fetchTaskIntelligenceSetting,
      effect_tags, loadTags.
    split_ifs; reflexivity.
  - intros w w' e Hstep. rewrite (step_filter _ w w' e Hstep).
    assert (Hh : List.filter is_GetTaskIntelligenceEnabled
                   (calls (handler toLowerCase trim w e)) = []).
    { unfold handler, handleChange, handleParentRecurrenceChange,
        handleEditParent, handleDeleteConfirm, handleCreateProject.
      destruct e; cbn; split_ifs; reflexivity. }
    rewrite Hh. cbn [app]. f_equal.
    unfold due_effects, effect_task, fetchParentTask,
      fetchTaskIntelligenceSetting, effect_tags, loadTags, effect_projects.
    destruct (isOpen (props w)), (isOpen (props w')); cbn;
      split_ifs; reflexivity.
Qed.

(** X3. The parent task is fetched only by the effect on [task],
    [projects], [isOpen] and the task-intelligence flag: a turn calls
    [fetchTaskById] once, for the [recurring_parent_id] of the task it
    ends with, when one of those four changed and it ends open on a task
    whose [recurring_parent_id] is truthy; otherwise it does not call
    it. *)
Theorem parent_fetched_when_dependencies_change (w w' : World) (e : event) :
  step toLowerCase trim parent w e = Some w' ->
  issued is_FetchTaskById w' =
  issued is_FetchTaskById w
  ++ if bool_decide (deps_task w = deps_task w') then []
     else if truthy (get (task (props w')) "recurring_parent_id")
             && isOpen (props w')
          then [FetchTaskById (get (task (props w')) "recurring_parent_id")]
          else [].
Proof.
  intros Hstep. rewrite (step_filter _ w w' e Hstep).
  assert (Hh : List.filter is_FetchTaskById (calls (handler toLowerCase trim w e)) = []).
  { unfold handler, handleChange, handleParentRecurrenceChange,
      handleEditParent, handleDeleteConfirm, handleCreateProject.
    destruct e; cbn; split_ifs; reflexivity. }
  rewrite Hh. cbn [app]. f_equal.
  unfold due_effects, effect_task, fetchParentTask,
    fetchTaskIntelligenceSetting, effect_tags, loadTags, effect_projects.
  split_ifs; reflexivity.
Qed.

(** X4. A closed modal fetches nothing: the first render of a closed
    modal calls nothing at all, and no turn that ends with the modal
    closed calls [fetchTaskById], [getTaskIntelligenceEnabled] or
    [fetchTags]. *)
Theorem closed_modal_fetches_nothing :
  (forall p, isOpen p = false -> trace (mount parent p) = []) /\
  (forall w w' e,
      step toLowerCase trim parent w e = Some w' -> isOpen (props w') = false ->
      issued is_fetch w' = issued is_fetch w).
Proof.
  split.
  - intros p Hp. unfold mount. rewrite flush_trace.
    unfold effect_task, fetchParentTask, fetchTaskIntelligenceSetting,
      effect_tags, loadTags.
    rewrite Hp, andb_false_r. cbn. split_ifs; reflexivity.
  - intros w w' e Hstep Hclosed. rewrite (step_filter _ w w' e Hstep).
    assert (Hh : List.filter is_fetch (calls (handler toLowerCase trim w e)) = []).
    { unfold handler, handleChange, handleParentRecurrenceChange,
        handleEditParent, handleDeleteConfirm, handleCreateProject.
      destruct e; cbn; split_ifs; reflexivity. }
    rewrite Hh. cbn [app].
    unfold due_effects, effect_task, fetchParentTask,
      fetchTaskIntelligenceSetting, effect_tags, loadTags, effect_projects.
    rewrite Hclosed, andb_false_r. cbn.
    split_ifs; cbn; now rewrite ?app_nil_r.
Qed.

(** X5. Closing is deferred: cancel, Escape or a click outside
    ([handleClose]), a submit and a finished deletion only set a timer of
    300 ms, and [onClose] is called by that timer's callback; the one
    handler that calls [onClose] at once is the one that goes to the
    parent task. No other event of the session sets a close timer or
    calls [onClose]. *)
Theorem close_is_deferred_to_the_timer (w w' : World) (e : event) :
  step toLowerCase trim parent w e = Some w' ->
  issued is_OnClose w' =
    issued is_OnClose w
    ++ match e with
       | EvCloseTimeout => [OnClose]
       | EvEditParent => if onEditParentTask (props w) then [OnClose] else []
       | _ => []
       end /\
  issued is_SetTimeout w' =
    issued is_SetTimeout w
    ++ match e with
       | EvClose | EvSubmit | EvDeleteResolved => [SetTimeout 300]
       | _ => []
       end.
Proof.
  intros Hstep. rewrite !(step_filter _ w w' e Hstep).
  assert (Hdue : forall kind,
             (kind = is_OnClose \/ kind = is_SetTimeout) ->
             List.filter kind (calls (due_effects w w')) = []).
  { intros kind Hk.
    unfold due_effects, effect_task, fetchParentTask,
      fetchTaskIntelligenceSetting, effect_tags, loadTags, effect_projects.
    destruct Hk as [-> | ->]; split_ifs; reflexivity. }
  rewrite !Hdue, !app_nil_r by auto.
  apply step_inv in Hstep as [Hoff _].
  split; f_equal.
  - destruct e;
      try (unfold handler, handleChange, handleParentRecurrenceChange,
             handleDeleteConfirm, handleCreateProject; cbn; split_ifs; reflexivity).
    cbn in Hoff. unfold handler, handleEditParent.
    destruct (parentTask (st w)); [|now rewrite andb_false_r in Hoff].
    destruct (onEditParentTask (props w)); reflexivity.
  - unfold handler, handleChange, handleParentRecurrenceChange,
      handleEditParent, handleDeleteConfirm, handleCreateProject.
    destruct e; cbn; split_ifs; reflexivity.
Qed.


(** ** The form data across turns *)

Lemma commit_form (old new : World) :
  formData (st (commit parent old new)) =
    (if bool_decide (deps_task old = deps_task new) then formData (st new)
     else task (props new)) /\
  tags (st (commit parent old new)) =
    (if bool_decide (deps_task old = deps_task new) then tags (st new)
     else tag_names (task (props new))).
Proof.
  unfold commit. rewrite flush_st.
  unfold due_effects, effect_task, fetchParentTask,
    fetchTaskIntelligenceSetting, effect_tags, loadTags, effect_projects.
  split_ifs; split; reflexivity.
Qed.

(** X7. Whenever the task, the project list, [isOpen] or the
    task-intelligence flag changes in a turn, the form is reset to the
    task of the props: every unsaved edit is gone and the tag names are
    read from that task again. In particular the flag arriving with a
    value other than the one held resets a form the user has already
    edited. *)
Theorem form_reset_when_dependencies_change (w w' : World) (e : event) :
  step toLowerCase trim parent w e = Some w' ->
  deps_task w <> deps_task w' ->
  formData (st w') = task (props w') /\
  tags (st w') = tag_names (task (props w')).
Proof.
  intros Hstep Hdeps. apply step_inv in Hstep as [_ ->].
  rewrite deps_task_commit in Hdeps.
  destruct (commit_form w
              (flush parent (handler toLowerCase trim w e)
                 match e with
                 | EvProps p =>
                     with_props p (with_pending (settle e (pending w)) w)
                 | _ => with_pending (settle e (pending w)) w
                 end)) as [Hf Ht].
  rewrite Hf, Ht, commit_props.
  rewrite bool_decide_eq_false_2 by exact Hdeps. auto.
Qed.


(** ** The loading flag of the parent *)

Lemma flush_parent_fetches (acts : list action) (w : World) :
  parent_fetches (pending (flush parent acts w)) =
  parent_fetches (pending w)
  + length (List.filter is_FetchTaskById (calls acts)).
Proof.
  revert w. induction acts as [|a acts IH]; intros w; [cbn; lia|].
  change (flush parent (a :: acts) w)
    with (flush parent acts (apply_action parent a w)).
  rewrite IH. destruct a as [u|v|b|b|v|b|v|b|v|b|u|c].
  12: destruct c.
  all: cbn; fold (calls acts); lia.
Qed.

Lemma commit_loading (old new : World) :
  (parentTaskLoading (st (commit parent old new)) = parentTaskLoading (st new) /\
   List.filter is_FetchTaskById (calls (due_effects old new)) = []) \/
  (exists id,
      List.filter is_FetchTaskById (calls (due_effects old new)) =
      [FetchTaskById id]).
Proof.
  unfold commit. rewrite flush_st.
  unfold due_effects, effect_task, fetchParentTask,
    fetchTaskIntelligenceSetting, effect_tags, loadTags, effect_projects.
  split_ifs; cbn; eauto.
Qed.

Lemma step_loading_has_fetch (w w' : World) (e : event) :
  step toLowerCase trim parent w e = Some w' -> loading_has_fetch w -> loading_has_fetch w'.
Proof.
  intros Hstep Hinv. apply step_inv in Hstep as [Hoff ->].
  set (w2 := match e with EvProps _ => _ | _ => _ end).
  set (wf := flush parent (handler toLowerCase trim w e) w2).
  unfold loading_has_fetch, commit.
  rewrite flush_parent_fetches.
  destruct (commit_loading w wf) as [[Hl Hn] | [id Hid]].
  - unfold commit in Hl. rewrite Hl, Hn. cbn [length]. intros Hload.
    subst wf. rewrite flush_parent_fetches. rewrite flush_st in Hload.
    assert (Hst : st w2 = st w) by (subst w2; destruct e; reflexivity).
    rewrite Hst in Hload.
    assert (Hcases :
      (parent_fetches (pending w2) = parent_fetches (pending w) /\
       parentTaskLoading
         (fold_left (fun s a => apply_setter a s) (handler toLowerCase trim w e) (st w)) =
       parentTaskLoading (st w)) \/
      parentTaskLoading
        (fold_left (fun s a => apply_setter a s) (handler toLowerCase trim w e) (st w)) = false).
    { subst w2. unfold handler, handleChange, handleParentRecurrenceChange,
        handleEditParent, handleDeleteConfirm, handleCreateProject.
      destruct e; cbn; split_ifs; auto. }
    destruct Hcases as [[Hp Hs] | Hfalse]; [|congruence].
    rewrite Hp. rewrite Hs in Hload. specialize (Hinv Hload). lia.
  - rewrite Hid. cbn [length]. lia.
Qed.

(** X9. The loading flag of the parent is never left on: in every state
    reached from the first render, whatever the order in which the user
    acts, props change and fetches come back, [parentTaskLoading] is true
    only while a [fetchTaskById] is still in flight. *)
Theorem parent_loading_only_while_fetching (p : Props) (es : list event)
    (w : World) :
  run toLowerCase trim parent (mount parent p) es = Some w ->
  parentTaskLoading (st w) = true -> 0 < parent_fetches (pending w).
Proof.
  assert (Hmount : loading_has_fetch (mount parent p)).
  { unfold loading_has_fetch, mount.
    rewrite flush_st, flush_parent_fetches.
    unfold effect_task, fetchParentTask, fetchTaskIntelligenceSetting,
      effect_tags, loadTags.
    split_ifs; cbn; first [discriminate | lia]. }
  revert Hmount. generalize (mount parent p) as w0.
  induction es as [|e es IH]; intros w0 Hinv Hrun.
  - cbn in Hrun. injection Hrun as <-. exact Hinv.
  - cbn in Hrun. destruct (step toLowerCase trim parent w0 e) as [w1|] eqn:Hstep; [|discriminate].
    apply (IH w1); [|exact Hrun].
    eapply step_loading_has_fetch; eauto.
Qed.

(** X10. A parent that comes back is shown by whichever session is open
    then: when a parent fetch resolves in an open session, the fetched
    task becomes the parent, the session is in Open(parent-loaded) and
    going to the parent is offered, whatever task is being edited and
    whether or not it has a [recurring_parent_id]. *)
Theorem late_parent_is_shown_by_the_open_session (w : World) (fetched : Task) :
  isOpen (props w) = true ->
  0 < parent_fetches (pending w) ->
  exists w',
    step toLowerCase trim parent w (EvParentResolved fetched) = Some w' /\
    props w' = props w /\
    parentTask (st w') = Some fetched /\
    session_state w' = OpenParentLoaded /\
    offered w' EvEditParent = true.
Proof.
  intros Hopen Hpend. eexists. split.
  - rewrite step_offered by (cbn; now apply bool_decide_eq_true_2).
    rewrite commit_same_deps by reflexivity. reflexivity.
  - cbn. unfold session_state. cbn. rewrite Hopen. auto.
Qed.

(** ** Tags *)

Lemma tag_names_objects (l : list jsval) (t : Task) :
  tag_names (<["tags" := tag_objects l]> t) = l.
Proof.
  unfold tag_names, tag_objects. rewrite lookup_insert_eq.
  induction l as [|x l IH]; [reflexivity|]. cbn. now rewrite IH.
Qed.

(** X11. Tag names survive the trip through the form: writing a list of
    names as tag objects and reading the names back gives the same list,
    and after the tags section reports a new list, a submit hands the
    owner a payload whose tag names are exactly that list, in the same
    order and with duplicates kept. *)
Theorem tag_names_round_trip (w : World) (newTags : list jsval) :
  isOpen (props w) = true ->
  (forall t, tag_names (<["tags" := tag_objects newTags]> t) = newTags) /\
  exists w1 w2 payload,
    step toLowerCase trim parent w (EvTagsChange newTags) = Some w1 /\
    tags (st w1) = newTags /\
    tag_names (formData (st w1)) = newTags /\
    step toLowerCase trim parent w1 EvSubmit = Some w2 /\
    saved (trace w2) = saved (trace w) ++ [payload] /\
    tag_names payload = newTags.
Proof.
  intros Hopen. split; [intros t; apply tag_names_objects|].
  assert (Hstep : step toLowerCase trim parent w (EvTagsChange newTags) =
                  Some (flush parent (handleTagsChange newTags) w)).
  { rewrite step_offered by exact Hopen.
    rewrite commit_same_deps by reflexivity.
    destruct w as [p s t q]. destruct q. reflexivity. }
  set (w1 := flush parent (handleTagsChange newTags) w) in *.
  assert (Hopen1 : offered w1 EvSubmit = true) by exact Hopen.
  exists w1. eexists. eexists.
  split; [exact Hstep|]. split; [reflexivity|].
  split; [apply tag_names_objects|].
  split; [apply (step_offered toLowerCase trim parent w1 EvSubmit Hopen1)|].
  split.
  - rewrite commit_trace, flush_trace, !saved_app.
    assert (Hdue : forall new, saved (calls (due_effects w1 new)) = []).
    { intros new.
      unfold due_effects, effect_task, fetchParentTask,
        fetchTaskIntelligenceSetting, effect_tags, loadTags, effect_projects.
      split_ifs; reflexivity. }
    rewrite Hdue, app_nil_r. reflexivity.
  - apply tag_names_objects.
Qed.

(** ** Deleting the task *)

Lemma commit_showConfirmDialog (old new : World) :
  showConfirmDialog (st (commit parent old new)) = showConfirmDialog (st new).
Proof.
  unfold commit. rewrite flush_st.
  unfold due_effects, effect_task, fetchParentTask,
    fetchTaskIntelligenceSetting, effect_tags, loadTags, effect_projects.
  split_ifs; reflexivity.
Qed.

(** X12. Confirming a deletion calls [onDelete] only when the form data
    has a truthy [id] (with a new task nothing happens at all), and the
    dialog stays up while the deletion is awaited. When the deletion
    fails, the error is logged and shown and nothing else changes: the
    dialog stays up and the session stays open with no close timer set.
    When it succeeds, the dialog is taken down and the close timer is
    set; the form data is left as it is. *)
Theorem delete_confirmation_flow (w : World) :
  (isOpen (props w) = true -> showConfirmDialog (st w) = true ->
   truthy (get (formData (st w)) "id") = false ->
   step toLowerCase trim parent w EvDeleteConfirm = Some w) /\
  (isOpen (props w) = true -> showConfirmDialog (st w) = true ->
   truthy (get (formData (st w)) "id") = true ->
   exists w' rest,
     step toLowerCase trim parent w EvDeleteConfirm = Some w' /\
     trace w' = trace w ++ OnDelete (get (formData (st w)) "id") :: rest /\
     showConfirmDialog (st w') = true /\
     deletes (pending w') = deletes (pending w) ++ [formData (st w)]) /\
  (deletes (pending w) <> [] ->
   forall err,
   exists w',
     step toLowerCase trim parent w (EvDeleteRejected err) = Some w' /\
     st w' = st w /\ props w' = props w /\
     close_timers (pending w') = close_timers (pending w) /\
     trace w' =
       trace w ++ [ConsoleError "Failed to delete task:" err;
                   ShowErrorToast "task.deleteError"]) /\
  (deletes (pending w) <> [] ->
   exists w',
     step toLowerCase trim parent w EvDeleteResolved = Some w' /\
     showConfirmDialog (st w') = false /\
     isClosing (st w') = true /\
     formData (st w') = formData (st w) /\
     props w' = props w /\
     close_timers (pending w') = S (close_timers (pending w))).
Proof.
  split; [|split; [|split]].
  - intros Hopen Hdlg Hid.
    rewrite step_offered by (cbn; now rewrite Hopen, Hdlg).
    cbn [handler]. unfold handleDeleteConfirm. rewrite Hid.
    rewrite commit_same_deps by reflexivity.
    destruct w as [p s t q]. destruct q. reflexivity.
  - intros Hopen Hdlg Hid. eexists. eexists. split.
    + rewrite step_offered by (cbn; now rewrite Hopen, Hdlg). reflexivity.
    + rewrite commit_showConfirmDialog.
      cbn [handler]. unfold handleDeleteConfirm. rewrite Hid.
      split; [|split].
      * rewrite commit_trace. cbn. rewrite <- app_assoc. reflexivity.
      * exact Hdlg.
      * unfold commit.
        unfold due_effects, effect_task, fetchParentTask,
          fetchTaskIntelligenceSetting, effect_tags, loadTags, effect_projects.
        split_ifs; reflexivity.
  - intros Hne err. eexists. split.
    + rewrite step_offered by (cbn; now apply bool_decide_eq_true_2).
      rewrite commit_same_deps by reflexivity. reflexivity.
    + cbn. rewrite <- app_assoc. auto.
  - intros Hne. eexists. split.
    + rewrite step_offered by (cbn; now apply bool_decide_eq_true_2).
      rewrite commit_same_deps by reflexivity. reflexivity.
    + cbn. auto.
Qed.

(** ** Edits of the recurrence *)

(** X13. Edits of the parent's recurrence add up: after two of them in a
    row the local copy of the parent is the loaded parent with both
    fields written, the second over the first where they name the same
    field, the form data has both fields and [update_parent_recurrence]
    true, and nothing has been called: the parent itself is not written
    by these edits. *)
Theorem parent_edits_compose (w : World) (parent_task : Task)
    (f1 f2 : string) (v1 v2 : jsval) :
  isOpen (props w) = true ->
  parentTask (st w) = Some parent_task ->
  exists w2,
    run toLowerCase trim parent w [EvParentRecurrenceChange f1 v1;
                  EvParentRecurrenceChange f2 v2] = Some w2 /\
    parentTask (st w2) = Some (<[f2 := v2]> (<[f1 := v1]> parent_task)) /\
    formData (st w2) =
      <["update_parent_recurrence" := VBool true]>
        (<[f2 := v2]>
           (<["update_parent_recurrence" := VBool true]>
              (<[f1 := v1]> (formData (st w))))) /\
    (forall k, k <> f1 -> k <> f2 -> k <> "update_parent_recurrence" ->
               formData (st w2) !! k = formData (st w) !! k) /\
    trace w2 = trace w /\ props w2 = props w.
Proof.
  intros Hopen Hpt.
  set (w1 := flush parent (handleParentRecurrenceChange (st w) f1 v1) w).
  assert (Hs1 : step toLowerCase trim parent w (EvParentRecurrenceChange f1 v1) = Some w1).
  { rewrite step_offered by (cbn; rewrite Hopen, Hpt; reflexivity).
    rewrite commit_same_deps.
    - destruct w as [p s t q]. destruct q. reflexivity.
    - cbn [handler]. unfold handleParentRecurrenceChange. now rewrite Hpt.
    - cbn [handler]. unfold handleParentRecurrenceChange. now rewrite Hpt. }
  assert (Hw1 : props w1 = props w /\ trace w1 = trace w /\
                parentTask (st w1) = Some (<[f1 := v1]> parent_task) /\
                formData (st w1) =
                  <["update_parent_recurrence" := VBool true]>
                    (<[f1 := v1]> (formData (st w)))).
  { subst w1. unfold handleParentRecurrenceChange. rewrite Hpt. cbn. auto. }
  destruct Hw1 as (Hp1 & Ht1 & Hpt1 & Hf1).
  set (w2 := flush parent (handleParentRecurrenceChange (st w1) f2 v2) w1).
  assert (Hs2 : step toLowerCase trim parent w1 (EvParentRecurrenceChange f2 v2) = Some w2).
  { rewrite step_offered by (cbn; rewrite Hp1, Hopen, Hpt1; reflexivity).
    rewrite commit_same_deps.
    - destruct w1 as [p s t q]. destruct q. reflexivity.
    - cbn [handler]. unfold handleParentRecurrenceChange. now rewrite Hpt1.
    - cbn [handler]. unfold handleParentRecurrenceChange. now rewrite Hpt1. }
  assert (Hw2 : props w2 = props w1 /\ trace w2 = trace w1 /\
                parentTask (st w2) =
                  Some (<[f2 := v2]> (<[f1 := v1]> parent_task)) /\
                formData (st w2) =
                  <["update_parent_recurrence" := VBool true]>
                    (<[f2 := v2]> (formData (st w1)))).
  { subst w2. unfold handleParentRecurrenceChange. rewrite Hpt1. cbn. auto. }
  destruct Hw2 as (Hp2 & Ht2 & Hpt2 & Hf2).
  exists w2. split; [cbn [run]; now rewrite Hs1, Hs2|].
  split; [exact Hpt2|]. split; [now rewrite Hf2, Hf1|].
  split; [|split; congruence].
  intros k Hk1 Hk2 Hk3. rewrite Hf2, Hf1.
  now rewrite !lookup_insert_ne by congruence.
Qed.

(** X14. An edit of the task's own recurrence writes that one field of
    the form data and nothing else: the copy of the parent is left alone
    and [update_parent_recurrence] is not set, so the payload of a submit
    that follows carries the field (unless it is [tags]) and has
    [update_parent_recurrence] as the form held it before. *)
Theorem own_recurrence_edit_does_not_touch_parent (w : World)
    (field : string) (value : jsval) :
  isOpen (props w) = true ->
  field <> "update_parent_recurrence" ->
  exists w1 w2 payload,
    step toLowerCase trim parent w (EvRecurrenceChange field value) = Some w1 /\
    formData (st w1) = <[field := value]> (formData (st w)) /\
    parentTask (st w1) = parentTask (st w) /\
    trace w1 = trace w /\
    step toLowerCase trim parent w1 EvSubmit = Some w2 /\
    saved (trace w2) = saved (trace w) ++ [payload] /\
    payload !! "update_parent_recurrence" =
      formData (st w) !! "update_parent_recurrence" /\
    (field <> "tags" -> payload !! field = Some value).
Proof.
  intros Hopen Hfield.
  set (w1 := flush parent (handleRecurrenceChange field value) w).
  assert (Hs1 : step toLowerCase trim parent w (EvRecurrenceChange field value) = Some w1).
  { rewrite step_offered by exact Hopen.
    rewrite commit_same_deps by reflexivity.
    destruct w as [p s t q]. destruct q. reflexivity. }
  assert (Hopen1 : offered w1 EvSubmit = true) by exact Hopen.
  exists w1. eexists. eexists.
  split; [exact Hs1|]. split; [reflexivity|]. split; [reflexivity|].
  split; [reflexivity|].
  split; [apply (step_offered toLowerCase trim parent w1 EvSubmit Hopen1)|].
  split.
  - rewrite commit_trace, flush_trace, !saved_app.
    assert (Hdue : forall new, saved (calls (due_effects w1 new)) = []).
    { intros new.
      unfold due_effects, effect_task, fetchParentTask,
        fetchTaskIntelligenceSetting, effect_tags, loadTags, effect_projects.
      split_ifs; reflexivity. }
    rewrite Hdue, app_nil_r. reflexivity.
  - cbn. split.
    + rewrite lookup_insert_ne by discriminate.
      now rewrite lookup_insert_ne by congruence.
    + intros Htags. rewrite lookup_insert_ne by congruence.
      apply lookup_insert_eq.
Qed.

(** ** The closing style *)

Lemma flush_close_timers (acts : list action) (w : World) :
  close_timers (pending (flush parent acts w)) =
  close_timers (pending w) + length (List.filter is_SetTimeout (calls acts)).
Proof.
  revert w. induction acts as [|a acts IH]; intros w; [cbn; lia|].
  change (flush parent (a :: acts) w)
    with (flush parent acts (apply_action parent a w)).
  rewrite IH. destruct a as [u|v|b|b|v|b|v|b|v|b|u|c].
  12: destruct c.
  all: cbn; fold (calls acts); lia.
Qed.

Lemma commit_closing (old new : World) :
  isClosing (st (commit parent old new)) = isClosing (st new) /\
  close_timers (pending (commit parent old new)) = close_timers (pending new).
Proof.
  unfold commit. rewrite flush_st, flush_close_timers.
  unfold due_effects, effect_task, fetchParentTask,
    fetchTaskIntelligenceSetting, effect_tags, loadTags, effect_projects.
  split_ifs; cbn; split; first [reflexivity | lia].
Qed.

Lemma step_closing_has_timer (w w' : World) (e : event) :
  step toLowerCase trim parent w e = Some w' -> closing_has_timer w -> closing_has_timer w'.
Proof.
  intros Hstep Hinv. apply step_inv in Hstep as [Hoff ->].
  set (w2 := match e with EvProps _ => _ | _ => _ end).
  unfold closing_has_timer.
  destruct (commit_closing w (flush parent (handler toLowerCase trim w e) w2)) as [-> ->].
  rewrite flush_st, flush_close_timers.
  assert (Hst : st w2 = st w) by (subst w2; destruct e; reflexivity).
  rewrite Hst.
  assert (Hcases :
    (close_timers (pending w2) = close_timers (pending w) /\
     isClosing (fold_left (fun s a => apply_setter a s) (handler toLowerCase trim w e) (st w)) =
     isClosing (st w)) \/
    isClosing (fold_left (fun s a => apply_setter a s) (handler toLowerCase trim w e) (st w))
      = false \/
    0 < length (List.filter is_SetTimeout (calls (handler toLowerCase trim w e)))).
  { subst w2. unfold handler, handleChange, handleParentRecurrenceChange,
      handleEditParent, handleDeleteConfirm, handleCreateProject.
    destruct e; cbn; split_ifs; auto; right; right; lia. }
  intros Hclosing.
  destruct Hcases as [[Hp Hs] | [Hfalse | Hpos]]; [|congruence|lia].
  rewrite Hp. rewrite Hs in Hclosing. specialize (Hinv Hclosing). lia.
Qed.

(** X15. The closing style cannot stick: in every state reached from
    the first render, [isClosing] is true only while a close timer set by
    [handleClose] has not fired yet. *)
Theorem closing_only_while_timer_pending (p : Props) (es : list event)
    (w : World) :
  run toLowerCase trim parent (mount parent p) es = Some w ->
  isClosing (st w) = true -> 0 < close_timers (pending w).
Proof.
  assert (Hmount : closing_has_timer (mount parent p)).
  { unfold closing_has_timer, mount. rewrite flush_st.
    unfold effect_task, fetchParentTask, fetchTaskIntelligenceSetting,
      effect_tags, loadTags.
    split_ifs; cbn; discriminate. }
  revert Hmount. generalize (mount parent p) as w0.
  induction es as [|e es IH]; intros w0 Hinv Hrun.
  - cbn in Hrun. injection Hrun as <-. exact Hinv.
  - cbn in Hrun. destruct (step toLowerCase trim parent w0 e) as [w1|] eqn:Hstep; [|discriminate].
    apply (IH w1); [|exact Hrun].
    eapply step_closing_has_timer; eauto.
Qed.

(** ** The analysis across turns *)

(** X22. The analysis of the title is recomputed only when the name is
    edited or the form is reset: as long as the task, the project list,
    [isOpen] and the task-intelligence flag stay the same, every event
    other than an edit of the field [name] leaves it as it is; edits of
    the note, the due date, the tags, the status or the recurrence do not
    touch it. *)
Theorem analysis_kept_by_other_events (w w' : World) (e : event) :
  step toLowerCase trim parent w e = Some w' ->
  deps_task w = deps_task w' ->
  (forall value, e <> EvChange "name" value) ->
  taskAnalysis (st w') = taskAnalysis (st w).
Proof.
  intros Hstep Hdeps Hname. apply step_inv in Hstep as [_ ->].
  rewrite deps_task_commit in Hdeps.
  rewrite commit_taskAnalysis, (bool_decide_eq_true_2 _ Hdeps).
  rewrite flush_st, settled_st.
  destruct e;
    try (unfold handler, handleParentRecurrenceChange, handleEditParent,
           handleDeleteConfirm, handleCreateProject; cbn; split_ifs; reflexivity).
  cbn [handler]. unfold handleChange.
  destruct (String.eqb name "name") eqn:E; [|reflexivity].
  apply String.eqb_eq in E. subst name. now destruct (Hname value).
Qed.

End Coverage.

(** * Further properties of the helpers *)

(** X16. [getPriorityString] never returns the empty string, whatever it
    is given (a string outside the three priorities included: the empty
    string becomes medium), and what it returns is a fixed point: handed
    its own result, it returns it again. *)
Theorem getPriorityString_never_empty (p : priority_arg) :
  getPriorityString p <> "" /\
  getPriorityString (PString (getPriorityString p)) = getPriorityString p.
Proof.
  assert (Hor : forall x, or_medium x <> "" /\
                          or_medium (Some (or_medium x)) = or_medium x).
  { intros [s|]; cbn; [|split; [discriminate | reflexivity]].
    destruct (String.eqb s "") eqn:E; cbn.
    - split; [discriminate | reflexivity].
    - rewrite E. split; [|reflexivity].
      intros ->. discriminate E. }
  destruct p as [n|s|]; cbn [getPriorityString]; apply Hor.
Qed.

(** X17. The dot on the button of the metadata section is off exactly
    when the form has no due date, its priority is the string medium and
    its status is empty or not_started. So it is on for every priority
    that is not that very string, among them a missing priority and the
    number 1, which the section itself, through [getPriorityString],
    shows as medium. *)
Theorem metadata_dot_compares_the_raw_priority (fd : Task) :
  (metadata_indicator fd = false <->
   truthy (get fd "due_date") = false /\
   get fd "priority" = VStr "medium" /\
   (truthy (get fd "status") = false \/
    get fd "status" = VStr "not_started")) /\
  (forall p,
      priority_arg_of (get fd "priority") = Some p ->
      p <> PString "medium" ->
      metadata_indicator fd = true).
Proof.
  assert (Hiff : metadata_indicator fd = false <->
    truthy (get fd "due_date") = false /\
    get fd "priority" = VStr "medium" /\
    (truthy (get fd "status") = false \/
     get fd "status" = VStr "not_started")).
  { unfold metadata_indicator.
    rewrite !orb_false_iff, andb_false_iff, !negb_false_iff,
      !strict_eq_VStr.
    tauto. }
  split; [exact Hiff|].
  intros p Hp Hne. destruct Hiff as [Hoff _].
  destruct (metadata_indicator fd); [reflexivity|].
  destruct (Hoff eq_refl) as (_ & Hprio & _). rewrite Hprio in Hp.
  cbn in Hp. congruence.
Qed.

(** X18. Toggling a section twice gives back the layout one started
    from; toggling one section leaves the three others as they are; and
    the timer that scrolls the form is set exactly when the toggle
    expands the section, not when it collapses it. *)
Theorem toggleSection_spec (section : section_key) (prev : ExpandedSections) :
  fst (toggleSection section (fst (toggleSection section prev))) = prev /\
  expanded section (fst (toggleSection section prev)) =
    negb (expanded section prev) /\
  (forall other, other <> section ->
     expanded other (fst (toggleSection section prev)) = expanded other prev) /\
  snd (toggleSection section prev) =
    if expanded section prev then [] else [SetTimeout 100].
Proof.
  destruct prev as [a b c d]. split; [|split; [|split]].
  - destruct section; cbn; now rewrite negb_involutive.
  - destruct section; reflexivity.
  - intros other Hne. destruct section, other; try reflexivity; congruence.
  - destruct section; cbn;
      match goal with |- context [negb ?x] => destruct x end; reflexivity.
Qed.

(** ** The project search *)

Section Search.

Variable toLowerCase : string -> string.

Lemma contains_empty (s : string) : contains "" s = true.
Proof. destruct s; reflexivity. Qed.

(** X19. Searching the projects keeps, in their order, exactly the
    projects whose lower-cased name contains the lower-cased text; a text
    that lower-cases to the empty string keeps them all; the text kept
    for the input box is the lower-cased one and the dropdown is opened.
    As lower-casing twice is lower-casing once, the search ignores the
    case of what is typed. *)
Theorem project_search_filters_by_lower_case
    (projects : list Project.t) (value : string) (pk : Picker) :
  (forall s, toLowerCase (toLowerCase s) = toLowerCase s) ->
  let found := handleProjectSearch toLowerCase projects value pk in
  sublist (filteredProjects found) projects /\
  (forall project,
      In project (filteredProjects found) <->
      In project projects /\
      contains (toLowerCase value) (toLowerCase (Project.name project)) = true) /\
  (toLowerCase value = "" -> filteredProjects found = projects) /\
  newProjectName found = toLowerCase value /\
  dropdownOpen found = true /\
  handleProjectSearch toLowerCase projects (toLowerCase value) pk = found.
Proof.
  intros Hidem found. subst found. cbn.
  split; [|split; [|split; [|split; [|split]]]].
  - induction projects as [|x l IH]; cbn; [constructor|].
    destruct (contains _ _); [now apply sublist_skip | now apply sublist_cons].
  - intros project. apply List.filter_In.
  - intros ->. induction projects as [|x l IH]; cbn; [reflexivity|].
    now rewrite contains_empty, IH.
  - reflexivity.
  - reflexivity.
  - unfold handleProjectSearch. now rewrite Hidem.
Qed.

End Search.

(** ** The scroll lock and the listeners on the document *)

Lemma rerender_locked (open : bool) (m : Mounted) :
  doc m = locked (open_now m) (effects_of m) ->
  doc (rerender open m) =
    locked (open_now (rerender open m)) (effects_of (rerender open m)) /\
  open_now (rerender open m) = open.
Proof.
  intros Hdoc. unfold rerender.
  destruct (Bool.eqb open (open_now m)) eqn:E.
  - apply Bool.eqb_prop in E. cbn. now subst open.
  - cbn. rewrite Hdoc. split; [|reflexivity].
    unfold escape_effect, scroll_lock_effect, escape_cleanup,
      scroll_lock_cleanup, locked.
    destruct (open_now m), open; try discriminate E;
      cbn; rewrite ?Nat.eqb_refl; reflexivity.
Qed.

Lemma last_cons_default (o d : bool) (l : list bool) :
  List.last (o :: l) d = List.last l o.
Proof.
  revert o d. induction l as [|x l IH]; intros o d; [reflexivity|].
  change (List.last (o :: x :: l) d) with (List.last (x :: l) d).
  rewrite (IH x d), (IH x o). reflexivity.
Qed.

(** X20. The modal holds the document only while it is open: after the
    first render and any number of later renders, the body's [overflow]
    is hidden and one mousedown and one keydown listener are registered
    if the last render had the modal open, and otherwise [overflow] is
    unset and no listener of the modal is left, whatever [overflow] was
    before the modal was mounted. Unmounting leaves [overflow] unset and
    no listener. *)
Theorem document_held_only_while_open (overflow : string) (open : bool)
    (opens : list bool) :
  let m := fold_left (fun m o => rerender o m) opens
             (mount_document open (fresh_document overflow)) in
  open_now m = List.last opens open /\
  doc m = locked (open_now m) (effects_of m) /\
  unmount_document m = locked false 0.
Proof.
  assert (Hmount :
    doc (mount_document open (fresh_document overflow)) =
      locked (open_now (mount_document open (fresh_document overflow)))
             (effects_of (mount_document open (fresh_document overflow))) /\
    open_now (mount_document open (fresh_document overflow)) = open)
    by (destruct open; split; reflexivity).
  revert Hmount.
  generalize (mount_document open (fresh_document overflow)) as m0.
  revert open. induction opens as [|o opens IH]; intros open m0 [Hdoc Hopen].
  - cbn. split; [exact Hopen|]. split; [exact Hdoc|].
    unfold unmount_document. rewrite Hdoc.
    unfold escape_cleanup, scroll_lock_cleanup, locked.
    destruct (open_now m0); cbn; rewrite ?Nat.eqb_refl; reflexivity.
  - cbn [fold_left].
    destruct (IH o (rerender o m0) (rerender_locked o m0 Hdoc))
      as (Hlast & Hdoc' & Hun).
    split; [|split; [exact Hdoc' | exact Hun]].
    rewrite Hlast. symmetry. apply last_cons_default.
Qed.

(** ** The navigation links *)

(** X21. A navigation link carries exactly one of the two markers:
    [active bg-dark] when it is active and [link-dark] when it is not.
    It is active only when the request path is the link's path. A link
    to a page other than a project's is active, on its path, exactly
    when the request has no query parameter at all if the link was given
    none, and exactly when the request has each of the link's parameters
    with the link's value (and any others besides) if it was given
    some. *)
Theorem nav_link_active_only_on_its_path (req : Helpers.request)
    (path : string) (query_params : list (string * string))
    (project_id : option string) :
  Helpers.nav_link req path query_params project_id =
    (if Helpers.is_active req path query_params project_id
     then "nav-link py-1 px-3 active bg-dark"
     else "nav-link py-1 px-3 link-dark") /\
  (Helpers.is_active req path query_params project_id = true ->
   Helpers.path_info req = path) /\
  (query_params = [] -> contains "/project/" path = false ->
   (Helpers.is_active req path query_params project_id = true <->
    Helpers.path_info req = path /\ Helpers.params req = ∅)) /\
  (query_params <> [] -> contains "/project/" path = false ->
   (Helpers.is_active req path query_params project_id = true <->
    Helpers.path_info req = path /\
    forall k v, In (k, v) query_params ->
                Helpers.params req !! k = Some (Helpers.Text v))).
Proof.
  split; [|split; [|split]].
  - unfold Helpers.nav_link.
    destruct (Helpers.is_active req path query_params project_id); reflexivity.
  - unfold Helpers.is_active.
    destruct (contains "/project/" (Helpers.path_info req)
              && contains "/project/" path);
      [|destruct (negb (bool_decide (query_params = [])))];
      intros H; apply andb_true_iff in H as [H _];
      now apply String.eqb_eq in H.
  - intros -> Hpath. unfold Helpers.is_active.
    rewrite Hpath, andb_false_r. cbn.
    rewrite andb_true_iff, String.eqb_eq, bool_decide_eq_true. tauto.
  - intros Hne Hpath. unfold Helpers.is_active.
    rewrite Hpath, andb_false_r.
    rewrite (bool_decide_eq_false_2 _ Hne). cbn.
    rewrite andb_true_iff, String.eqb_eq, forallb_forall.
    split; intros [Hp Hall]; (split; [exact Hp|]).
    + intros k v Hin. specialize (Hall (k, v) Hin).
      now apply bool_decide_eq_true in Hall.
    + intros [k v] Hin. apply bool_decide_eq_true. now apply Hall.
Qed.

(** * The further properties on sample sessions *)

Lemma save_only_on_submit_witness :
  step lower trim_spaces closing_owner loaded_session EvSubmit
  = Some (run_from closing_owner loaded_session [EvSubmit]) /\
  saved (trace (run_from closing_owner loaded_session [EvSubmit])) =
  saved (trace loaded_session)
  ++ [<["tags" := tag_objects (tags (st loaded_session))]>
        (formData (st loaded_session))].
Proof.
  assert (H : step lower trim_spaces closing_owner loaded_session EvSubmit
              = Some (run_from closing_owner loaded_session [EvSubmit]))
    by (vm_compute; reflexivity).
  split; [exact H|].
  exact (save_only_on_submit lower trim_spaces closing_owner _ _ _ H).
Defined.

Lemma flag_fetched_exactly_on_opening_witness :
  step lower trim_spaces closing_owner (mount closing_owner closed_props)
    (EvProps (props_for true rent_child 0))
  = Some (run_from closing_owner (mount closing_owner closed_props)
            [EvProps (props_for true rent_child 0)]) /\
  issued is_GetTaskIntelligenceEnabled
    (run_from closing_owner (mount closing_owner closed_props)
       [EvProps (props_for true rent_child 0)])
  = [GetTaskIntelligenceEnabled].
Proof.
  assert (H : step lower trim_spaces closing_owner (mount closing_owner closed_props)
                (EvProps (props_for true rent_child 0))
              = Some (run_from closing_owner (mount closing_owner closed_props)
                        [EvProps (props_for true rent_child 0)]))
    by (vm_compute; reflexivity).
  split; [exact H|].
  destruct (flag_fetched_exactly_on_opening lower trim_spaces closing_owner) as [_ Hstep].
  exact (Hstep _ _ _ H).
Defined.

Lemma parent_fetched_when_dependencies_change_witness :
  step lower trim_spaces closing_owner (mount closing_owner closed_props)
    (EvProps (props_for true rent_child 0))
  = Some (run_from closing_owner (mount closing_owner closed_props)
            [EvProps (props_for true rent_child 0)]) /\
  issued is_FetchTaskById
    (run_from closing_owner (mount closing_owner closed_props)
       [EvProps (props_for true rent_child 0)])
  = [FetchTaskById (VNum (number_of_Z 1))].
Proof.
  assert (H : step lower trim_spaces closing_owner (mount closing_owner closed_props)
                (EvProps (props_for true rent_child 0))
              = Some (run_from closing_owner (mount closing_owner closed_props)
                        [EvProps (props_for true rent_child 0)]))
    by (vm_compute; reflexivity).
  split; [exact H|].
  exact (parent_fetched_when_dependencies_change lower trim_spaces closing_owner _ _ _ H).
Defined.

Lemma closed_modal_fetches_nothing_witness :
  isOpen closed_props = false /\
  trace (mount closing_owner closed_props) = [].
Proof.
  assert (H : isOpen closed_props = false) by reflexivity.
  split; [exact H|].
  destruct (closed_modal_fetches_nothing lower trim_spaces closing_owner) as [Hmount _].
  exact (Hmount closed_props H).
Defined.

Lemma close_is_deferred_witness :
  step lower trim_spaces closing_owner loaded_session EvSubmit
  = Some (run_from closing_owner loaded_session [EvSubmit]) /\
  issued is_OnClose (run_from closing_owner loaded_session [EvSubmit])
  = issued is_OnClose loaded_session /\
  issued is_SetTimeout (run_from closing_owner loaded_session [EvSubmit])
  = issued is_SetTimeout loaded_session ++ [SetTimeout 300].
Proof.
  assert (H : step lower trim_spaces closing_owner loaded_session EvSubmit
              = Some (run_from closing_owner loaded_session [EvSubmit]))
    by (vm_compute; reflexivity).
  split; [exact H|].
  destruct (close_is_deferred_to_the_timer lower trim_spaces closing_owner _ _ _ H) as [H1 H2].
  split; [|exact H2]. rewrite H1. apply app_nil_r.
Defined.


Lemma form_reset_witness :
  step lower trim_spaces closing_owner edited_session (EvFlagResolved false)
  = Some (run_from closing_owner edited_session [EvFlagResolved false]) /\
  deps_task edited_session
  <> deps_task (run_from closing_owner edited_session [EvFlagResolved false]) /\
  formData (st edited_session) !! "name" = Some (VStr "Pay the rent") /\
  formData (st (run_from closing_owner edited_session [EvFlagResolved false]))
  = rent_child.
Proof.
  assert (H : step lower trim_spaces closing_owner edited_session (EvFlagResolved false)
              = Some (run_from closing_owner edited_session
                        [EvFlagResolved false]))
    by (vm_compute; reflexivity).
  assert (Hd : deps_task edited_session
               <> deps_task (run_from closing_owner edited_session
                               [EvFlagResolved false])).
  { intros Heq. vm_compute in Heq. discriminate Heq. }
  split; [exact H|]. split; [exact Hd|].
  split; [vm_compute; reflexivity|].
  destruct (form_reset_when_dependencies_change lower trim_spaces closing_owner _ _ _ H Hd)
    as [Hf _].
  exact Hf.
Defined.


Lemma parent_loading_witness :
  run lower trim_spaces closing_owner (mount closing_owner (props_for true rent_child 0))
    [EvTagsResolved (VArr [])]
  = Some (run_from closing_owner child_session [EvTagsResolved (VArr [])]) /\
  parentTaskLoading
    (st (run_from closing_owner child_session [EvTagsResolved (VArr [])]))
  = true /\
  0 < parent_fetches
        (pending (run_from closing_owner child_session
                    [EvTagsResolved (VArr [])])).
Proof.
  assert (H : run lower trim_spaces closing_owner (mount closing_owner (props_for true rent_child 0))
                [EvTagsResolved (VArr [])]
              = Some (run_from closing_owner child_session
                        [EvTagsResolved (VArr [])]))
    by (vm_compute; reflexivity).
  assert (Hl : parentTaskLoading
                 (st (run_from closing_owner child_session
                        [EvTagsResolved (VArr [])])) = true)
    by (vm_compute; reflexivity).
  split; [exact H|]. split; [exact Hl|].
  exact (parent_loading_only_while_fetching lower trim_spaces closing_owner _ _ _ H Hl).
Defined.

Lemma late_parent_is_shown_witness :
  isOpen (props reopened_on_untitled) = true /\
  0 < parent_fetches (pending reopened_on_untitled) /\
  absent (get (task (props reopened_on_untitled)) "recurring_parent_id") /\
  exists w,
    step lower trim_spaces closing_owner reopened_on_untitled (EvParentResolved rent_parent)
    = Some w /\
    session_state w = OpenParentLoaded.
Proof.
  assert (H1 : isOpen (props reopened_on_untitled) = true) by reflexivity.
  assert (H2 : 0 < parent_fetches (pending reopened_on_untitled))
    by (vm_compute; lia).
  split; [exact H1|]. split; [exact H2|].
  split; [left; vm_compute; reflexivity|].
  destruct (late_parent_is_shown_by_the_open_session lower trim_spaces closing_owner
              reopened_on_untitled rent_parent H1 H2)
    as (w & Hs & _ & _ & Hss & _).
  exists w. auto.
Defined.

Lemma tag_names_round_trip_witness :
  isOpen (props child_session) = true /\
  exists w1 w2 payload,
    step lower trim_spaces closing_owner child_session
      (EvTagsChange [VStr "home"; VStr "home"]) = Some w1 /\
    step lower trim_spaces closing_owner w1 EvSubmit = Some w2 /\
    saved (trace w2) = saved (trace child_session) ++ [payload] /\
    tag_names payload = [VStr "home"; VStr "home"].
Proof.
  assert (H1 : isOpen (props child_session) = true) by reflexivity.
  split; [exact H1|].
  destruct (tag_names_round_trip lower trim_spaces closing_owner child_session
              [VStr "home"; VStr "home"] H1)
    as (_ & w1 & w2 & payload & Hs1 & _ & _ & Hs2 & Hsaved & Hnames).
  exists w1, w2, payload. auto.
Defined.

Lemma delete_confirmation_flow_witness :
  isOpen (props confirming_session) = true /\
  showConfirmDialog (st confirming_session) = true /\
  truthy (get (formData (st confirming_session)) "id") = true /\
  exists w rest,
    step lower trim_spaces closing_owner confirming_session EvDeleteConfirm = Some w /\
    trace w =
      trace confirming_session
      ++ OnDelete (get (formData (st confirming_session)) "id") :: rest /\
    showConfirmDialog (st w) = true.
Proof.
  assert (H1 : isOpen (props confirming_session) = true) by reflexivity.
  assert (H2 : showConfirmDialog (st confirming_session) = true)
    by reflexivity.
  assert (H3 : truthy (get (formData (st confirming_session)) "id") = true)
    by (vm_compute; reflexivity).
  split; [exact H1|]. split; [exact H2|]. split; [exact H3|].
  destruct (delete_confirmation_flow lower trim_spaces closing_owner confirming_session)
    as (_ & Hconfirm & _).
  destruct (Hconfirm H1 H2 H3) as (w & rest & Hs & Ht & Hd & _).
  exists w, rest. auto.
Defined.

Lemma parent_edits_compose_witness :
  isOpen (props loaded_session) = true /\
  parentTask (st loaded_session) = Some rent_parent /\
  exists w,
    run lower trim_spaces closing_owner loaded_session
      [EvParentRecurrenceChange "recurrence_type" (VStr "weekly");
       EvParentRecurrenceChange "recurrence_interval" (VNum (number_of_Z 2))]
    = Some w /\
    parentTask (st w) =
      Some (<["recurrence_interval" := VNum (number_of_Z 2)]>
              (<["recurrence_type" := VStr "weekly"]> rent_parent)) /\
    trace w = trace loaded_session.
Proof.
  assert (H1 : isOpen (props loaded_session) = true) by reflexivity.
  assert (H2 : parentTask (st loaded_session) = Some rent_parent)
    by reflexivity.
  split; [exact H1|]. split; [exact H2|].
  destruct (parent_edits_compose lower trim_spaces closing_owner loaded_session rent_parent
              "recurrence_type" "recurrence_interval"
              (VStr "weekly") (VNum (number_of_Z 2)) H1 H2)
    as (w & Hrun & Hpt & _ & _ & Ht & _).
  exists w. auto.
Defined.

Lemma own_recurrence_edit_witness :
  isOpen (props loaded_session) = true /\
  exists w1 w2 payload,
    step lower trim_spaces closing_owner loaded_session
      (EvRecurrenceChange "recurrence_type" (VStr "daily")) = Some w1 /\
    parentTask (st w1) = parentTask (st loaded_session) /\
    step lower trim_spaces closing_owner w1 EvSubmit = Some w2 /\
    saved (trace w2) = saved (trace loaded_session) ++ [payload] /\
    payload !! "update_parent_recurrence" = None /\
    payload !! "recurrence_type" = Some (VStr "daily").
Proof.
  assert (H1 : isOpen (props loaded_session) = true) by reflexivity.
  split; [exact H1|].
  destruct (own_recurrence_edit_does_not_touch_parent lower trim_spaces closing_owner
              loaded_session "recurrence_type" (VStr "daily") H1)
    as (w1 & w2 & payload & Hs1 & _ & Hp & _ & Hs2 & Hsaved & Hflag & Hfield).
  { intros H. discriminate H. }
  exists w1, w2, payload.
  split; [exact Hs1|]. split; [exact Hp|]. split; [exact Hs2|].
  split; [exact Hsaved|]. split.
  - rewrite Hflag. vm_compute. reflexivity.
  - apply Hfield. intros H. discriminate H.
Defined.

Lemma closing_only_while_timer_pending_witness :
  run lower trim_spaces closing_owner (mount closing_owner (props_for true rent_child 0))
    [EvClose]
  = Some (run_from closing_owner child_session [EvClose]) /\
  isClosing (st (run_from closing_owner child_session [EvClose])) = true /\
  0 < close_timers (pending (run_from closing_owner child_session [EvClose])).
Proof.
  assert (H : run lower trim_spaces closing_owner
                (mount closing_owner (props_for true rent_child 0)) [EvClose]
              = Some (run_from closing_owner child_session [EvClose]))
    by (vm_compute; reflexivity).
  assert (Hc : isClosing (st (run_from closing_owner child_session [EvClose]))
               = true) by (vm_compute; reflexivity).
  split; [exact H|]. split; [exact Hc|].
  exact (closing_only_while_timer_pending lower trim_spaces closing_owner _ _ _ H Hc).
Defined.

Lemma metadata_dot_witness :
  priority_arg_of (get untitled_task "priority") = Some PUndefined /\
  getPriorityString PUndefined = "medium" /\
  metadata_indicator untitled_task = true.
Proof.
  assert (H : priority_arg_of (get untitled_task "priority") = Some PUndefined)
    by (vm_compute; reflexivity).
  split; [exact H|]. split; [reflexivity|].
  destruct (metadata_dot_compares_the_raw_priority untitled_task) as [_ Hon].
  apply (Hon PUndefined H). intros Heq. discriminate Heq.
Defined.

Lemma toggleSection_witness :
  SecProject <> SecTags /\
  expanded SecProject (fst (toggleSection SecTags all_collapsed)) = false /\
  expanded SecTags (fst (toggleSection SecTags all_collapsed)) = true.
Proof.
  assert (H : SecProject <> SecTags) by (intros Heq; discriminate Heq).
  split; [exact H|].
  destruct (toggleSection_spec SecTags all_collapsed) as (_ & Hon & Hother & _).
  split; [exact (Hother SecProject H) | exact Hon].
Defined.

Lemma ascii_lower_idempotent (c : Ascii.ascii) :
  ascii_lower (ascii_lower c) = ascii_lower c.
Proof. destruct c as [[] [] [] [] [] [] [] []]; reflexivity. Qed.

Lemma lower_idempotent (s : string) : lower (lower s) = lower s.
Proof.
  induction s as [|c s IH]; [reflexivity|].
  cbn. now rewrite ascii_lower_idempotent, IH.
Qed.

Lemma project_search_witness :
  (forall s, lower (lower s) = lower s) /\
  map Project.name
    (filteredProjects
       (handleProjectSearch lower sample_projects "HOME"
          {| filteredProjects := sample_projects; newProjectName := "";
             dropdownOpen := false; isCreatingProject := false |}))
  = ["Home"; "Homework"] /\
  sublist
    (filteredProjects
       (handleProjectSearch lower sample_projects "HOME"
          {| filteredProjects := sample_projects; newProjectName := "";
             dropdownOpen := false; isCreatingProject := false |}))
    sample_projects.
Proof.
  split; [exact lower_idempotent|]. split; [vm_compute; reflexivity|].
  destruct (project_search_filters_by_lower_case lower sample_projects "HOME"
              {| filteredProjects := sample_projects; newProjectName := "";
                 dropdownOpen := false; isCreatingProject := false |}
              lower_idempotent) as (Hsub & _).
  exact Hsub.
Defined.

Lemma nav_link_witness :
  Helpers.is_active sample_request "/tasks" [("due_date", "today")] None
  = true /\
  Helpers.path_info sample_request = "/tasks" /\
  Helpers.is_active sample_request "/tasks" [] None = false.
Proof.
  assert (H : Helpers.is_active sample_request "/tasks"
                [("due_date", "today")] None = true)
    by (vm_compute; reflexivity).
  split; [exact H|].
  destruct (nav_link_active_only_on_its_path sample_request "/tasks"
              [("due_date", "today")] None) as (_ & Hpath & _).
  split; [exact (Hpath H)|]. vm_compute. reflexivity.
Defined.

Lemma analysis_kept_witness :
  step lower trim_spaces closing_owner child_session (EvChange "note" "before noon")
  = Some (run_from closing_owner child_session
            [EvChange "note" "before noon"]) /\
  taskAnalysis
    (st (run_from closing_owner child_session [EvChange "note" "before noon"]))
  = taskAnalysis (st child_session).
Proof.
  assert (H : step lower trim_spaces closing_owner child_session (EvChange "note" "before noon")
              = Some (run_from closing_owner child_session
                        [EvChange "note" "before noon"]))
    by (vm_compute; reflexivity).
  split; [exact H|].
  apply (analysis_kept_by_other_events lower trim_spaces closing_owner _ _ _ H).
  - vm_compute. reflexivity.
  - intros value Heq. discriminate Heq.
Defined.
